(** * solar_robot: a shallow embedding of [solar_robot.py]

    The script polls a solar inverter over Modbus, switches two Shelly
    devices (a relay and a lamp) by HTTP according to two power thresholds,
    remembers in a JSON state file which device it switched on itself, and
    sleeps through the night.

    Every Python function of the script is a computation in a small
    state-and-exception monad over a [world]: the state file, the two
    devices, the pending outcomes of network and Modbus exchanges, the
    clock with the time that passes before each of its coming reads, and
    the trace of the HTTP requests and sleeps performed so far.
    Logging changes nothing that the script reads back and is left out. *)

From Stdlib Require Import ZArith List String Bool Lia.
From Stdlib Require Import Strings.Byte.
Import ListNotations.

Set Warnings "-register-all".

Local Open Scope string_scope.
Local Open Scope list_scope.
Local Open Scope Z_scope.

(** ** Python values, as [json.load] produces them *)

Inductive value : Type :=
| VNone
| VBool (b : bool)
| VInt (z : Z)
| VStr (s : string)
| VList (l : list value)
| VDict (d : list (string * value)).

(** Truth value of an object in [if] and [not]. *)
Definition truthy (v : value) : bool :=
  match v with
  | VNone => false
  | VBool b => b
  | VInt z => negb (z =? 0)
  | VStr s => negb (String.eqb s "")
  | VList l => match l with [] => false | _ :: _ => true end
  | VDict d => match d with [] => false | _ :: _ => true end
  end.

(** A [dict] keeps its keys in insertion order; a key occurs once. *)
Fixpoint dict_get (k : string) (d : list (string * value)) : option value :=
  match d with
  | [] => None
  | (k', v) :: d' => if String.eqb k k' then Some v else dict_get k d'
  end.

Fixpoint dict_set (k : string) (v : value) (d : list (string * value))
  : list (string * value) :=
  match d with
  | [] => [(k, v)]
  | (k', v') :: d' =>
      if String.eqb k k' then (k', v) :: d' else (k', v') :: dict_set k v d'
  end.

(** ** Exceptions *)

Inductive exn : Type :=
| KeyError
| TypeError
| AttributeError
| IndexError
| ValueError
| UnboundLocalError
| OSError
| JSONDecodeError
| ConnectionError
| ModbusException.

Inductive result (A : Type) : Type :=
| Val (a : A)
| Exc (e : exn).
Arguments Val {A} a.
Arguments Exc {A} e.

(** ** The world outside the interpreter *)

(** What is found at [config["state_file"]]. [Garbage] stands for any
    content that [open] or [json.load] rejects. *)
Inductive file : Type :=
| NoFile
| Garbage
| JsonFile (v : value).

Record url : Type := mkUrl { host : string; path : string }.

Definition url_eqb (a b : url) : bool :=
  String.eqb (host a) (host b) && String.eqb (path a) (path b).

Record response : Type := mkResponse {
  status_code : Z;
  body : option value        (* [None]: the body is not JSON *)
}.

(** Outcome of one HTTP exchange. [Healthy]: the request reaches the device,
    which obeys and answers 200 with its state. [Reply]: the answer is the
    given one and the device is left as it was. [ConnError]: [requests.get]
    raises. *)
Inductive fault : Type :=
| Healthy
| Reply (code : Z) (b : option value)
| ConnError.

(** Outcome of one Modbus read of input registers: the call raises, the
    result reports an error, or it carries registers, each one two bytes on
    the wire, high byte first. *)
Inductive modbus : Type :=
| MbRaise
| MbIsError
| MbRegisters (payload : list (byte * byte)).

Inductive event : Type :=
| Request (u : url) (turn : option bool)   (* [requests.get(url[, params])] *)
| Sleep (d : Z).                           (* [time.sleep], microseconds *)

Record world : Type := mkWorld {
  state_file : file;
  writable : bool;           (* can the state file be opened for writing *)
  relay_ison : bool;         (* the relay, physically *)
  lamp_ison : bool;          (* the lamp, physically *)
  net : list fault;          (* outcomes of the coming HTTP exchanges *)
  meter : list modbus;       (* outcomes of the coming Modbus reads *)
  now : Z;                   (* the clock, microseconds *)
  lapse : list N;            (* time passing before each coming clock read *)
  trace : list event         (* most recent last *)
}.

Definition set_state_file (f : file) (w : world) : world :=
  mkWorld f (writable w) (relay_ison w) (lamp_ison w) (net w) (meter w)
          (now w) (lapse w) (trace w).
Definition set_relay_ison (b : bool) (w : world) : world :=
  mkWorld (state_file w) (writable w) b (lamp_ison w) (net w) (meter w)
          (now w) (lapse w) (trace w).
Definition set_lamp_ison (b : bool) (w : world) : world :=
  mkWorld (state_file w) (writable w) (relay_ison w) b (net w) (meter w)
          (now w) (lapse w) (trace w).
Definition set_net (n : list fault) (w : world) : world :=
  mkWorld (state_file w) (writable w) (relay_ison w) (lamp_ison w) n (meter w)
          (now w) (lapse w) (trace w).
Definition set_meter (m : list modbus) (w : world) : world :=
  mkWorld (state_file w) (writable w) (relay_ison w) (lamp_ison w) (net w) m
          (now w) (lapse w) (trace w).
Definition set_now (t : Z) (w : world) : world :=
  mkWorld (state_file w) (writable w) (relay_ison w) (lamp_ison w) (net w)
          (meter w) t (lapse w) (trace w).
Definition emit (e : event) (w : world) : world :=
  mkWorld (state_file w) (writable w) (relay_ison w) (lamp_ison w) (net w)
          (meter w) (now w) (lapse w) (trace w ++ [e]).
Definition set_lapse (l : list N) (w : world) : world :=
  mkWorld (state_file w) (writable w) (relay_ison w) (lamp_ison w) (net w)
          (meter w) (now w) l (trace w).

(** ** The monad *)

Definition M (A : Type) : Type := world -> result A * world.

Definition ret {A} (a : A) : M A := fun w => (Val a, w).
Definition raise {A} (e : exn) : M A := fun w => (Exc e, w).
Definition bind {A B} (m : M A) (k : A -> M B) : M B :=
  fun w => match m w with
           | (Val a, w') => k a w'
           | (Exc e, w') => (Exc e, w')
           end.
(** [try: m except Exception as e: h e] *)
Definition try_except {A} (m : M A) (h : exn -> M A) : M A :=
  fun w => match m w with
           | (Val a, w') => (Val a, w')
           | (Exc e, w') => h e w'
           end.

Notation "x <- m ;; k" := (bind m (fun x => k))
  (at level 61, m at next level, right associativity).
Notation "m ;;; k" := (bind m (fun _ => k))
  (at level 61, right associativity).

(** The world a computation leaves, and what it returns. *)
Definition exec {A} (m : M A) (w : world) : world := snd (m w).
Definition eval {A} (m : M A) (w : world) : result A := fst (m w).

(** ** Configuration: the module-level [config] *)

Record configuration : Type := mkConfig {
  high_threshold : Z;
  low_threshold : Z;
  shelly_relay_ip : string;
  shelly_lamp_ip : string
}.

(** Microseconds in a second: the resolution of [datetime]. *)
Definition second : Z := 1000000.

(** The locals of [main] that outlive its start-up. *)
Record locals : Type := mkLocals {
  relay_turned_on_by_script : value;
  lamp_turned_on_by_script : value;
  relay_initial_state : value;
  lamp_initial_state : value
}.

(** ** What the trace and the state file show *)

Definition is_set_state (e : event) : bool :=
  match e with
  | Request _ (Some _) => true
  | _ => false
  end.

(** The device-control requests of a trace, in order. *)
Definition set_state_calls (t : list event) : list event :=
  filter is_set_state t.

Definition is_request (e : event) : bool :=
  match e with
  | Request _ _ => true
  | Sleep _ => false
  end.

Definition http_requests (t : list event) : list event :=
  filter is_request t.

(** The device-control requests sent to one address. *)
Definition controls_of (u : url) (t : list event) : list event :=
  filter (fun e => match e with
                   | Request u' (Some _) => url_eqb u' u
                   | _ => false
                   end) t.

Definition flag_of (k : string) (state : value) : option value :=
  match state with
  | VDict d => dict_get k d
  | _ => None
  end.

(** ** A concrete installation, to run the script on *)

Module Scenario.

Definition cfg : configuration :=
  mkConfig 1000 200 "192.168.1.10" "192.168.1.11".

Definition relay : url := mkUrl "192.168.1.10" "/relay/0".
Definition lamp : url := mkUrl "192.168.1.11" "/light/0".

Definition day : Z := 86400 * second.
Definition hour : Z := 3600 * second.
Definition date (t : Z) : Z := t / day.
Definition rise (d : Z) : Z := day * d + 6 * hour.
Definition set (d : Z) : Z := day * d + 18 * hour.

Definition noon : Z := 12 * hour.

(** The two registers of an answer whose second one holds [p]. *)
Definition reading (p : N) : modbus :=
  MbRegisters
    [(x00, x00);
     (match Byte.of_N (p / 256) with Some b => b | None => x00 end,
      match Byte.of_N (p mod 256) with Some b => b | None => x00 end)].

Definition owned (r l : bool) : value :=
  VDict [("relay_turned_on_by_script", VBool r);
         ("lamp_turned_on_by_script", VBool l)].

(** Both devices off, no state file yet, every exchange healthy. *)
Definition fresh (readings : list modbus) : world :=
  mkWorld NoFile true false false [] readings noon [] [].

(** Both devices on and recorded as switched on by the script. *)
Definition running (readings : list modbus) : world :=
  mkWorld (JsonFile (owned true true)) true true true [] readings noon [] [].

(** A state file that holds one key only. *)
Definition half_file : world :=
  mkWorld (JsonFile (VDict [("relay_turned_on_by_script", VBool true)]))
          true false false [] [] noon [] [].

(** The state file cannot be opened for writing. *)
Definition read_only : world :=
  mkWorld (JsonFile (owned false false)) false false false [] [] noon []
          [].

(** The relay is on, switched by hand; nothing is recorded. *)
Definition by_hand (readings : list modbus) : world :=
  mkWorld (JsonFile (owned false false)) true true false [] readings noon [] [].




(** One microsecond before midnight; two microseconds pass before the third
    of the coming clock reads. *)
Definition midnight : world :=
  mkWorld NoFile true false false [] [] (day - 1) [0; 0; 2; 0]%N [].

End Scenario.

Section Script.

Variable config : configuration.

(** The solar calendar of [astral]: the instants of sunrise and sunset of a
    date, and the date ([datetime.now().date()]) an instant falls on. *)
Variable sunrise sunset : Z -> Z.
Variable date_of : Z -> Z.

(** *** The state file *)

Definition os_path_exists : M bool := fun w =>
  (Val (match state_file w with NoFile => false | _ => true end), w).

(** [with open(path, 'r') as file: json.load(file)] *)
Definition read_json : M value := fun w =>
  match state_file w with
  | NoFile => (Exc OSError, w)
  | Garbage => (Exc JSONDecodeError, w)
  | JsonFile v => (Val v, w)
  end.

(** [with open(path, 'w') as file: json.dump(state, file)] *)
Definition write_json (v : value) : M unit := fun w =>
  if writable w then (Val tt, set_state_file (JsonFile v) w)
  else (Exc OSError, w).

Definition relay_key : string := "relay_turned_on_by_script".
Definition lamp_key : string := "lamp_turned_on_by_script".

Definition default_state : value :=
  VDict [(relay_key, VBool false); (lamp_key, VBool false)].

Definition load_state : M value :=
  try_except
    (ex <- os_path_exists ;;
     if ex then read_json else ret default_state)
    (fun _ => ret default_state).

(** [state[k]] *)
Definition getitem (state : value) (k : string) : M value :=
  match state with
  | VDict d => match dict_get k d with
               | Some v => ret v
               | None => raise KeyError
               end
  | _ => raise TypeError
  end.

(** [state[k] = v] *)
Definition setitem (state : value) (k : string) (v : value) : M value :=
  match state with
  | VDict d => ret (VDict (dict_set k v d))
  | _ => raise TypeError
  end.

Definition save_state (device_type : string) (turn_on : bool) : M unit :=
  try_except
    (state <- load_state ;;
     state <- (if String.eqb device_type "relay"
               then setitem state relay_key (VBool turn_on)
               else if String.eqb device_type "lamp"
               then setitem state lamp_key (VBool turn_on)
               else ret state) ;;
     write_json state)
    (fun _ => ret tt).

(** *** The Shelly devices *)

Definition relay_endpoint : url := mkUrl (shelly_relay_ip config) "/relay/0".
Definition lamp_endpoint : url := mkUrl (shelly_lamp_ip config) "/light/0".

Definition ison_body (b : bool) : option value :=
  Some (VDict [("ison", VBool b)]).

(** What a device that is reached does with a request, and its answer. A
    request to an address where neither device listens fails to connect. *)
Definition serve (u : url) (turn : option bool) : M response := fun w =>
  if url_eqb u relay_endpoint then
    let b := match turn with Some t => t | None => relay_ison w end in
    (Val (mkResponse 200 (ison_body b)), set_relay_ison b w)
  else if url_eqb u lamp_endpoint then
    let b := match turn with Some t => t | None => lamp_ison w end in
    (Val (mkResponse 200 (ison_body b)), set_lamp_ison b w)
  else (Exc ConnectionError, w).

(** [requests.get(url)] and [requests.get(url, params={'turn': ...})]. The
    outcome of the exchange is the next pending one; with none pending the
    exchange is healthy. *)
Definition requests_get (u : url) (turn : option bool) : M response := fun w =>
  let w1 := emit (Request u turn) w in
  match net w1 with
  | [] => serve u turn w1
  | Healthy :: n => serve u turn (set_net n w1)
  | Reply code b :: n => (Val (mkResponse code b), set_net n w1)
  | ConnError :: n => (Exc ConnectionError, set_net n w1)
  end.

(** The [if]/[elif] on [device_type] that binds [url]; with neither branch
    taken the later use of [url] raises. *)
Definition device_url (device_ip device_type : string) : M url :=
  if String.eqb device_type "relay" then ret (mkUrl device_ip "/relay/0")
  else if String.eqb device_type "lamp" then ret (mkUrl device_ip "/light/0")
  else raise UnboundLocalError.

(** [response.json()] *)
Definition response_json (r : response) : M value :=
  match body r with
  | Some v => ret v
  | None => raise JSONDecodeError
  end.

(** [v.get(k, default)] *)
Definition get_default (v : value) (k : string) (default : value) : M value :=
  match v with
  | VDict d => ret (match dict_get k d with Some x => x | None => default end)
  | _ => raise AttributeError
  end.

Definition get_shelly_device_state (device_ip device_type : string) : M value :=
  try_except
    (u <- device_url device_ip device_type ;;
     r <- requests_get u None ;;
     if status_code r =? 200 then
       j <- response_json r ;;
       get_default j "ison" (VBool false)
     else ret (VBool false))
    (fun _ => ret (VBool false)).

Definition control_shelly_device (device_ip device_type : string)
    (turn_on : bool) (track_state : bool) : M unit :=
  try_except
    (u <- device_url device_ip device_type ;;
     r <- requests_get u (Some turn_on) ;;
     if status_code r =? 200 then
       if track_state then save_state device_type turn_on else ret tt
     else ret tt)
    (fun _ => ret tt).

(** *** The power meter *)

(** A register as [pymodbus] decodes it: 16 bits, unsigned, big-endian. *)
Definition register_value (hl : byte * byte) : Z :=
  256 * Z.of_N (Byte.to_N (fst hl)) + Z.of_N (Byte.to_N (snd hl)).

(** [client.read_input_registers(5029, count=2)], between [connect] and
    [close]. With no outcome pending the meter is unreachable. *)
Definition read_input_registers : M (option (list Z)) := fun w =>
  match meter w with
  | [] => (Exc ModbusException, w)
  | MbRaise :: m => (Exc ModbusException, set_meter m w)
  | MbIsError :: m => (Val None, set_meter m w)
  | MbRegisters p :: m => (Val (Some (map register_value p)), set_meter m w)
  end.

(** [None] is [None]; a reading is [Some]. *)
Definition get_solar_output : M (option Z) :=
  try_except
    (result <- read_input_registers ;;
     match result with
     | None => ret None
     | Some registers =>
         match nth_error registers 1 with
         | Some power_output => ret (Some power_output)
         | None => raise IndexError
         end
     end)
    (fun _ => ret None).

(** *** The solar calendar and the clock *)

(** [s[event_type]] for the [sun] of a date, for the two events the script
    names; it asks for no other key. *)
Definition sun_event (event_type : string) (date : Z) : M Z :=
  if String.eqb event_type "sunrise" then ret (sunrise date)
  else if String.eqb event_type "sunset" then ret (sunset date)
  else raise KeyError.

(** [datetime.now()]: every read is a fresh one. The time that passed since
    the clock last showed is the next pending lapse; with none pending no
    time passed. *)
Definition datetime_now : M Z := fun w =>
  match lapse w with
  | [] => (Val (now w), w)
  | e :: rest =>
      (Val (now w + Z.of_N e), set_lapse rest (set_now (now w + Z.of_N e) w))
  end.

(** The world after the next [k] reads of the clock. *)
Fixpoint pass (k : nat) (w : world) : world :=
  match k with
  | O => w
  | S k' => pass k' (exec datetime_now w)
  end.

(** [time.sleep(d)]: a negative length is refused. The clock moves on by the
    length asked for; a longer sleep shows in the next lapse. *)
Definition time_sleep (d : Z) : M unit := fun w =>
  if d <? 0 then (Exc ValueError, w)
  else (Val tt, set_now (now w + d) (emit (Sleep d) w)).

Definition has_passed_event (event_type : string) : M bool :=
  today <- datetime_now ;;
  event_time <- sun_event event_type (date_of today) ;;
  current_time <- datetime_now ;;
  ret (event_time <? current_time).

Definition wait_until_sunrise : M unit :=
  today <- datetime_now ;;
  sunset_time <- sun_event "sunset" (date_of today) ;;
  current_time <- datetime_now ;;
  if sunset_time <? current_time then
    tomorrow <- datetime_now ;;
    next_sunrise_time <- sun_event "sunrise" (date_of tomorrow + 1) ;;
    let sleep_duration := next_sunrise_time - current_time in
    time_sleep sleep_duration
  else ret tt.

(** *** [main] *)

(** [main] up to the [while]. *)
Definition startup : M locals :=
  state <- load_state ;;
  relay_flag <- getitem state relay_key ;;
  lamp_flag <- getitem state lamp_key ;;
  relay_initial <- get_shelly_device_state (shelly_relay_ip config) "relay" ;;
  lamp_initial <- get_shelly_device_state (shelly_lamp_ip config) "lamp" ;;
  (if truthy relay_initial && negb (truthy relay_flag)
   then save_state "relay" false else ret tt) ;;;
  (if truthy lamp_initial && negb (truthy lamp_flag)
   then save_state "lamp" false else ret tt) ;;;
  ret (mkLocals relay_flag lamp_flag relay_initial lamp_initial).

(** The threshold policy of one iteration, for a reading that is present. *)
Definition policy (l : locals) (power_output : Z) : M unit :=
  if high_threshold config <? power_output then
    control_shelly_device (shelly_relay_ip config) "relay" true true ;;;
    control_shelly_device (shelly_lamp_ip config) "lamp" true true
  else if power_output <? low_threshold config then
    relay_state <- get_shelly_device_state (shelly_relay_ip config) "relay" ;;
    (if truthy relay_state then
       if truthy (relay_turned_on_by_script l)
       then control_shelly_device (shelly_relay_ip config) "relay" false true
       else ret tt
     else ret tt) ;;;
    lamp_state <- get_shelly_device_state (shelly_lamp_ip config) "lamp" ;;
    (if truthy lamp_state then
       if truthy (lamp_turned_on_by_script l)
       then control_shelly_device (shelly_lamp_ip config) "lamp" false true
       else ret tt
     else ret tt)
  else ret tt.

(** The end of an iteration: sleep to sunrise after sunset, else 5 s. *)
Definition sleep_decision : M unit :=
  passed <- has_passed_event "sunset" ;;
  if passed then wait_until_sunrise else time_sleep (5 * second).

(** One iteration of the [while True]. *)
Definition tick (l : locals) : M unit :=
  power_output <- get_solar_output ;;
  match power_output with
  | Some p => policy l p
  | None => ret tt
  end ;;;
  sleep_decision.

Fixpoint iterate (n : nat) (l : locals) : M unit :=
  match n with
  | O => ret tt
  | S n' => tick l ;;; iterate n' l
  end.

(** [main], cut after [n] iterations of its loop. *)
Definition main (n : nat) : M unit :=
  l <- startup ;;
  iterate n l.

(** What [load_state] reads back, as a function of the file. *)
Definition loaded (w : world) : value :=
  match state_file w with
  | JsonFile v => v
  | NoFile | Garbage => default_state
  end.

(** The record [save_state] writes from the one it read. *)
Definition merged (device_type : string) (turn_on : bool) (state : value)
  : option value :=
  if String.eqb device_type "relay" then
    match state with
    | VDict d => Some (VDict (dict_set relay_key (VBool turn_on) d))
    | _ => None
    end
  else if String.eqb device_type "lamp" then
    match state with
    | VDict d => Some (VDict (dict_set lamp_key (VBool turn_on) d))
    | _ => None
    end
  else Some state.

(** The HTTP exchange of a call on a device: the address is formed, then
    the request is sent. *)
Definition exchange (device_ip device_type : string) (turn : option bool)
  : M response :=
  u <- device_url device_ip device_type ;;
  requests_get u turn.

(** Two worlds with the same state file, clock and meter, the second with
    no more device-control requests than the first. *)
Definition observed_only (w w' : world) : Prop :=
  state_file w' = state_file w /\ writable w' = writable w /\
  now w' = now w /\ meter w' = meter w /\
  set_state_calls (trace w') = set_state_calls (trace w).

(** The inner [if] of the low branch of the policy, for one device: switch
    it off when it answered as on and its flag is set. *)
Definition guarded_off (state flag : value) (device_ip device_type : string)
  : M unit :=
  if truthy state then
    if truthy flag
    then control_shelly_device device_ip device_type false true
    else ret tt
  else ret tt.

(** The key of the state file that belongs to a device type. *)
Definition key_of (device_type : string) : string :=
  if String.eqb device_type "relay" then relay_key else lamp_key.

(** ** Notions for the properties of the whole loop *)

(** A computation keeps a property of the world: the property holds of the
    world it leaves, whether it returns or raises, when it held before. *)
Definition keeps {A} (P : world -> Prop) (m : M A) : Prop :=
  forall w, P w -> P (exec m w).

(** A computation that returns on every world. *)
Definition returns {A} (m : M A) : Prop :=
  forall w, exists a, eval m w = Val a.

Definition is_switch_off (e : event) : bool :=
  match e with
  | Request _ (Some false) => true
  | _ => false
  end.

(** The switch-off requests of a trace. *)
Definition switch_offs (t : list event) : list event :=
  filter is_switch_off t.

Definition is_sleep (e : event) : bool :=
  match e with
  | Sleep _ => true
  | Request _ _ => false
  end.

(** The sleeps of a trace. *)
Definition sleeps (t : list event) : list event :=
  filter is_sleep t.

(** The state file reads back as a record that holds a boolean under each
    of the two keys. *)
Definition recorded (w : world) : Prop :=
  exists d r l,
    loaded w = VDict d /\
    dict_get relay_key d = Some (VBool r) /\
    dict_get lamp_key d = Some (VBool l).

(** A computation adds to the trace, whether it returns or raises, only
    events that pass a test. *)
Definition emits {A} (allowed : event -> bool) (m : M A) : Prop :=
  forall w, exists t,
    trace (exec m w) = trace w ++ t /\ forallb allowed t = true.

(** The part of an iteration before its sleep. *)
Definition act (l : locals) : M unit :=
  power_output <- get_solar_output ;;
  match power_output with
  | Some p => policy l p
  | None => ret tt
  end.

(** * Properties *)

Ltac monad :=
  unfold bind, ret, raise, try_except, exec, eval in *; cbv beta in *.

(** ** Dictionaries *)

Lemma dict_get_set_same k v d : dict_get k (dict_set k v d) = Some v.
Proof.
  induction d as [|[k' v'] d IH]; simpl.
  - now rewrite String.eqb_refl.
  - destruct (String.eqb k k') eqn:E; simpl; rewrite E; auto.
Qed.

Lemma dict_get_set_other k k' v d :
  k' <> k -> dict_get k' (dict_set k v d) = dict_get k' d.
Proof.
  intros Hne. induction d as [|[k0 v0] d IH]; simpl.
  - destruct (String.eqb k' k) eqn:E; auto.
    apply String.eqb_eq in E. contradiction.
  - destruct (String.eqb k k0) eqn:E; simpl.
    + apply String.eqb_eq in E. subst k0.
      destruct (String.eqb k' k) eqn:E'; auto.
      apply String.eqb_eq in E'. contradiction.
    + now rewrite IH.
Qed.

(** ** The state file *)

Lemma load_state_loaded w : load_state w = (Val (loaded w), w).
Proof.
  unfold load_state, loaded, os_path_exists, read_json. monad.
  destruct (state_file w) eqn:E; simpl; rewrite ?E; reflexivity.
Qed.

Lemma save_state_merged device_type turn_on w :
  save_state device_type turn_on w =
  (Val tt,
   match merged device_type turn_on (loaded w) with
   | Some v => if writable w then set_state_file (JsonFile v) w else w
   | None => w
   end).
Proof.
  unfold save_state, bind at 1, try_except at 1.
  rewrite load_state_loaded. unfold merged, setitem, write_json. monad.
  destruct (String.eqb device_type "relay");
    [|destruct (String.eqb device_type "lamp")];
    destruct (loaded w); simpl; destruct (writable w); reflexivity.
Qed.

(** ** The power meter *)

Lemma register_value_range hl : 0 <= register_value hl <= 65535.
Proof.
  unfold register_value.
  pose proof (Byte.to_N_bounded (fst hl)).
  pose proof (Byte.to_N_bounded (snd hl)).
  lia.
Qed.

Lemma get_solar_output_returns w : exists r, eval get_solar_output w = Val r.
Proof.
  unfold get_solar_output, read_input_registers. monad.
  destruct (meter w) as [|[| |p] m]; cbn -[nth_error]; eauto.
  destruct (nth_error (map register_value p) 1); cbn; eauto.
Qed.

Lemma get_solar_output_frame w :
  let w' := exec get_solar_output w in
  state_file w' = state_file w /\ writable w' = writable w /\
  relay_ison w' = relay_ison w /\ lamp_ison w' = lamp_ison w /\
  net w' = net w /\ now w' = now w /\ trace w' = trace w.
Proof.
  unfold get_solar_output, read_input_registers. monad.
  destruct (meter w) as [|[| |p] m]; cbn -[nth_error]; auto 10.
  destruct (nth_error (map register_value p) 1); cbn; auto 10.
Qed.

(** C10. A reading that [get_solar_output] returns is the register at index
    1 of the answer to its read of two input registers, and so an integer
    from 0 to 65535: it is never negative. *)
Theorem get_solar_output_is_second_register w p :
  eval get_solar_output w = Val (Some p) ->
  exists payload rest,
    meter w = MbRegisters payload :: rest /\
    nth_error (map register_value payload) 1 = Some p /\
    0 <= p <= 65535.
Proof.
  unfold get_solar_output, read_input_registers. monad.
  destruct (meter w) as [|[| |payload] rest]; cbn -[nth_error];
    try discriminate.
  destruct (nth_error (map register_value payload) 1) as [q|] eqn:E;
    cbn; try discriminate.
  intros H. injection H as ->.
  exists payload, rest. repeat split; auto.
  - apply nth_error_In in E. apply in_map_iff in E.
    destruct E as [hl [<- _]]. apply register_value_range.
  - apply nth_error_In in E. apply in_map_iff in E.
    destruct E as [hl [<- _]]. apply register_value_range.
Qed.


(** ** The devices *)

Lemma set_state_calls_app t t' :
  set_state_calls (t ++ t') = set_state_calls t ++ set_state_calls t'.
Proof. apply filter_app. Qed.

Lemma requests_get_effect u turn w :
  exists r w',
    requests_get u turn w = (r, w') /\
    state_file w' = state_file w /\ writable w' = writable w /\
    now w' = now w /\ meter w' = meter w /\
    trace w' = trace w ++ [Request u turn].
Proof.
  unfold requests_get, serve. cbn [net emit].
  destruct (net w) as [|[|code b|] n];
    try (destruct (url_eqb u relay_endpoint);
         [|destruct (url_eqb u lamp_endpoint)]);
    do 2 eexists; (split; [reflexivity|]); cbn; auto.
Qed.

Lemma exchange_effect device_ip device_type turn w :
  exists r w',
    exchange device_ip device_type turn w = (r, w') /\
    state_file w' = state_file w /\ writable w' = writable w /\
    now w' = now w /\ meter w' = meter w /\
    (trace w' = trace w \/ exists u, trace w' = trace w ++ [Request u turn]).
Proof.
  unfold exchange, device_url. monad.
  destruct (String.eqb device_type "relay");
    [|destruct (String.eqb device_type "lamp")].
  - destruct (requests_get_effect (mkUrl device_ip "/relay/0") turn w)
      as (r & w' & E & H1 & H2 & H3 & H4 & H5).
    rewrite E. destruct r; do 2 eexists; (split; [reflexivity|]); eauto 10.
  - destruct (requests_get_effect (mkUrl device_ip "/light/0") turn w)
      as (r & w' & E & H1 & H2 & H3 & H4 & H5).
    rewrite E. destruct r; do 2 eexists; (split; [reflexivity|]); eauto 10.
  - do 2 eexists; (split; [reflexivity|]); auto 10.
Qed.

Lemma get_shelly_device_state_exchange device_ip device_type w :
  get_shelly_device_state device_ip device_type w =
  match exchange device_ip device_type None w with
  | (Val r, w') =>
      (Val match (if status_code r =? 200
                  then (j <- response_json r ;;
                        get_default j "ison" (VBool false))
                  else ret (VBool false)) w' with
           | (Val v, _) => v
           | (Exc _, _) => VBool false
           end, w')
  | (Exc _, w') => (Val (VBool false), w')
  end.
Proof.
  unfold get_shelly_device_state, exchange. monad.
  destruct (device_url device_ip device_type w) as [[u|e] w1]; auto.
  destruct (requests_get u None w1) as [[r|e] w2]; auto.
  destruct (status_code r =? 200); auto.
  unfold response_json, get_default. monad.
  destruct (body r) as [[]|]; reflexivity.
Qed.

Lemma get_shelly_device_state_effect device_ip device_type w :
  exists v w',
    get_shelly_device_state device_ip device_type w = (Val v, w') /\
    observed_only w w'.
Proof.
  rewrite get_shelly_device_state_exchange.
  destruct (exchange_effect device_ip device_type None w)
    as (r & w' & E & H1 & H2 & H3 & H4 & H5).
  rewrite E.
  assert (observed_only w w') as Ho.
  { unfold observed_only. repeat split; auto.
    destruct H5 as [->|[u ->]]; auto.
    rewrite set_state_calls_app. cbn. apply app_nil_r. }
  destruct r; do 2 eexists; split; try reflexivity; auto.
Qed.

Lemma control_shelly_device_exchange device_ip device_type turn_on track w :
  control_shelly_device device_ip device_type turn_on track w =
  match exchange device_ip device_type (Some turn_on) w with
  | (Val r, w') =>
      if (status_code r =? 200) && track
      then save_state device_type turn_on w'
      else (Val tt, w')
  | (Exc _, w') => (Val tt, w')
  end.
Proof.
  unfold control_shelly_device, exchange. monad.
  destruct (device_url device_ip device_type w) as [[u|e] w1]; auto.
  destruct (requests_get u (Some turn_on) w1) as [[r|e] w2]; auto.
  destruct (status_code r =? 200), track; cbn; auto.
  rewrite save_state_merged. reflexivity.
Qed.

Lemma control_shelly_device_returns device_ip device_type turn_on track w :
  eval (control_shelly_device device_ip device_type turn_on track) w = Val tt.
Proof.
  unfold eval. rewrite control_shelly_device_exchange.
  destruct (exchange device_ip device_type (Some turn_on) w) as [[r|e] w'];
    auto.
  destruct ((status_code r =? 200) && track); auto.
  now rewrite save_state_merged.
Qed.

Lemma flag_of_merged device_type turn_on d v :
  merged device_type turn_on (VDict d) = Some v ->
  (device_type = "relay" \/ device_type = "lamp") ->
  flag_of (key_of device_type) v = Some (VBool turn_on).
Proof.
  unfold merged, key_of. intros H [-> | ->]; cbn in *;
    injection H as <-; cbn; apply dict_get_set_same.
Qed.

Lemma exchange_device_type device_ip device_type turn w r w' :
  exchange device_ip device_type turn w = (Val r, w') ->
  device_type = "relay" \/ device_type = "lamp".
Proof.
  unfold exchange, device_url. monad.
  destruct (String.eqb device_type "relay") eqn:E1.
  - apply String.eqb_eq in E1. auto.
  - destruct (String.eqb device_type "lamp") eqn:E2.
    + apply String.eqb_eq in E2. auto.
    + discriminate.
Qed.

(** C6, as the code has it. A call of [control_shelly_device] never raises.
    When its exchange is answered with status 200 and [track_state] is true,
    it runs [save_state] for the commanded value at once, and with a
    writable state file that reads back as a record the device's flag then
    reads back as the commanded value; with [track_state] false the state
    file is left as it was. When the exchange raises or is answered with
    another status, the state file is left as it was. *)
Theorem control_shelly_device_persistence device_ip device_type turn_on w :
  (forall track_state,
      eval (control_shelly_device device_ip device_type turn_on track_state) w
      = Val tt) /\
  (forall r w1,
      exchange device_ip device_type (Some turn_on) w = (Val r, w1) ->
      status_code r = 200 ->
      control_shelly_device device_ip device_type turn_on true w
      = save_state device_type turn_on w1 /\
      (forall d, writable w = true -> loaded w = VDict d ->
         flag_of (key_of device_type)
           (loaded (exec (control_shelly_device device_ip device_type
                            turn_on true) w))
         = Some (VBool turn_on))) /\
  state_file (exec (control_shelly_device device_ip device_type
                      turn_on false) w) = state_file w /\
  (forall track_state,
      (forall r,
          eval (exchange device_ip device_type (Some turn_on)) w = Val r ->
          status_code r <> 200) ->
      state_file (exec (control_shelly_device device_ip device_type
                          turn_on track_state) w) = state_file w).
Proof.
  destruct (exchange_effect device_ip device_type (Some turn_on) w)
    as (r0 & w0 & E & Hf & Hw & _).
  split; [intros; apply control_shelly_device_returns|].
  split; [|split].
  - intros r w1 Hr H200. rewrite Hr in E. injection E as <- <-.
    assert (control_shelly_device device_ip device_type turn_on true w
            = save_state device_type turn_on w1) as Hc.
    { rewrite control_shelly_device_exchange, Hr, H200. reflexivity. }
    split; auto. intros d Hwr Hd.
    unfold exec. rewrite Hc, save_state_merged. cbn [snd].
    assert (loaded w1 = VDict d) as Hd1 by (unfold loaded in *; now rewrite Hf).
    rewrite Hd1, Hw, Hwr.
    destruct (merged device_type turn_on (VDict d)) as [v|] eqn:Em.
    + unfold loaded. cbn.
      eapply flag_of_merged; eauto using exchange_device_type.
    + apply exchange_device_type in Hr. unfold merged in Em.
      destruct Hr as [-> | ->]; discriminate.
  - unfold exec. rewrite control_shelly_device_exchange, E.
    destruct r0; rewrite ?andb_false_r; auto.
  - intros track Hfail. unfold exec, eval in *.
    rewrite control_shelly_device_exchange, E. rewrite E in Hfail.
    destruct r0 as [r|e]; auto. cbn in Hfail.
    specialize (Hfail r eq_refl).
    apply Z.eqb_neq in Hfail. rewrite Hfail. auto.
Qed.

(** ** Start-up *)

Lemma loaded_observed_only w w' : observed_only w w' -> loaded w' = loaded w.
Proof. intros (H & _). unfold loaded. now rewrite H. Qed.

Lemma observed_only_trans w1 w2 w3 :
  observed_only w1 w2 -> observed_only w2 w3 -> observed_only w1 w3.
Proof.
  unfold observed_only.
  intros (A1 & A2 & A3 & A4 & A5) (B1 & B2 & B3 & B4 & B5).
  repeat split; congruence.
Qed.

(** What an optional [save_state] leaves behind, on a record. *)
Lemma save_state_if (c : bool) device_type turn_on w d :
  loaded w = VDict d ->
  device_type = "relay" \/ device_type = "lamp" ->
  exists d',
    loaded (exec (if c then save_state device_type turn_on else ret tt) w)
    = VDict d' /\
    trace (exec (if c then save_state device_type turn_on else ret tt) w)
    = trace w /\
    writable (exec (if c then save_state device_type turn_on else ret tt) w)
    = writable w /\
    (forall k, k <> key_of device_type -> dict_get k d' = dict_get k d) /\
    dict_get (key_of device_type) d'
    = if c && writable w then Some (VBool turn_on)
      else dict_get (key_of device_type) d.
Proof.
  intros Hd Ht. unfold exec. destruct c; cbn [andb].
  - rewrite save_state_merged, Hd. cbn [snd].
    destruct (writable w) eqn:Hw.
    + destruct Ht as [-> | ->]; cbn; eexists;
        (split; [reflexivity|]); repeat split; auto;
        try apply dict_get_set_same;
        intros k Hk; now apply dict_get_set_other.
    + destruct Ht as [-> | ->]; cbn; exists d; repeat split; auto.
  - exists d. cbn. repeat split; auto.
Qed.

Lemma startup_inv w l w' :
  startup w = (Val l, w') ->
  exists d,
    loaded w = VDict d /\
    dict_get relay_key d = Some (relay_turned_on_by_script l) /\
    dict_get lamp_key d = Some (lamp_turned_on_by_script l) /\
    exists w1 w2,
      get_shelly_device_state (shelly_relay_ip config) "relay" w
      = (Val (relay_initial_state l), w1) /\
      get_shelly_device_state (shelly_lamp_ip config) "lamp" w1
      = (Val (lamp_initial_state l), w2) /\
      observed_only w w2 /\
      w' = exec (if truthy (lamp_initial_state l)
                    && negb (truthy (lamp_turned_on_by_script l))
                 then save_state "lamp" false else ret tt)
             (exec (if truthy (relay_initial_state l)
                       && negb (truthy (relay_turned_on_by_script l))
                    then save_state "relay" false else ret tt) w2).
Proof.
  unfold startup. unfold bind at 1. rewrite load_state_loaded.
  unfold getitem.
  destruct (loaded w) as [| | | | |d]; try (monad; discriminate).
  unfold bind at 1.
  destruct (dict_get relay_key d) as [rf|] eqn:Er; [|monad; discriminate].
  unfold ret at 1. unfold bind at 1.
  destruct (dict_get lamp_key d) as [lf|] eqn:El; [|monad; discriminate].
  unfold ret at 1. unfold bind at 1.
  destruct (get_shelly_device_state_effect (shelly_relay_ip config) "relay" w)
    as (ri & w1 & E1 & O1).
  rewrite E1. unfold bind at 1.
  destruct (get_shelly_device_state_effect (shelly_lamp_ip config) "lamp" w1)
    as (li & w2 & E2 & O2).
  rewrite E2. unfold bind at 1.
  set (c1 := truthy ri && negb (truthy rf)).
  set (c2 := truthy li && negb (truthy lf)).
  assert (forall (c : bool) dt x,
             (if c then save_state dt false else ret tt) x
             = (Val tt, exec (if c then save_state dt false else ret tt) x))
    as Hs.
  { intros [] dt x; unfold exec; [rewrite save_state_merged|]; reflexivity. }
  rewrite (Hs c1). unfold bind at 1. rewrite (Hs c2). unfold ret.
  intros H. injection H as <- <-. cbn.
  exists d. repeat split; auto.
  exists w1, w2. repeat split; auto.
  all: try apply (observed_only_trans _ _ _ O1 O2).
Qed.

(** C5. After the start-up, for a device that answered as switched on while
    its flag in the state file was false, the flag reads back as false, and
    as [False] itself when the file is writable; the start-up sends no
    device-control request at all. *)
Theorem startup_reconciliation w l w' :
  startup w = (Val l, w') ->
  set_state_calls (trace w') = set_state_calls (trace w) /\
  (truthy (relay_initial_state l) = true ->
   truthy (relay_turned_on_by_script l) = false ->
   exists v, flag_of relay_key (loaded w') = Some v /\ truthy v = false /\
             (writable w = true -> v = VBool false)) /\
  (truthy (lamp_initial_state l) = true ->
   truthy (lamp_turned_on_by_script l) = false ->
   exists v, flag_of lamp_key (loaded w') = Some v /\ truthy v = false /\
             (writable w = true -> v = VBool false)).
Proof.
  intros H. apply startup_inv in H.
  destruct H as (d & Hd & Hr & Hl & w1 & w2 & _ & _ & O & ->).
  pose proof (loaded_observed_only _ _ O) as Hd2. rewrite Hd in Hd2.
  destruct O as (_ & Ow & _ & _ & Ot).
  set (c1 := truthy (relay_initial_state l)
             && negb (truthy (relay_turned_on_by_script l))).
  set (c2 := truthy (lamp_initial_state l)
             && negb (truthy (lamp_turned_on_by_script l))).
  destruct (save_state_if c1 "relay" false w2 d Hd2 (or_introl eq_refl))
    as (d3 & L3 & T3 & W3 & K3 & V3).
  destruct (save_state_if c2 "lamp" false _ d3 L3 (or_intror eq_refl))
    as (d4 & L4 & T4 & W4 & K4 & V4).
  change (key_of "relay") with relay_key in *.
  change (key_of "lamp") with lamp_key in *.
  split; [congruence|]. rewrite L4. cbn [flag_of]. split.
  - intros Hon Hoff.
    rewrite (K4 relay_key) by discriminate. rewrite V3.
    subst c1. rewrite Hon, Hoff, Ow. cbn.
    destruct (writable w).
    + exists (VBool false). auto.
    + exists (relay_turned_on_by_script l). repeat split; auto. discriminate.
  - intros Hon Hoff.
    rewrite V4, W3. subst c2. rewrite Hon, Hoff, Ow. cbn.
    destruct (writable w).
    + exists (VBool false). auto.
    + rewrite (K3 lamp_key) by discriminate.
      exists (lamp_turned_on_by_script l). repeat split; auto. discriminate.
Qed.

(** C7, as the code has it. [load_state] never raises and leaves the world
    as it was. With no state file, or one that cannot be read as JSON, it
    returns the record of two [False] flags and the start-up of [main] goes
    through with both flags [False]; a file that reads as JSON is returned
    as read, whatever it holds. *)
Theorem load_state_never_raises w :
  (exists v, load_state w = (Val v, w)) /\
  (state_file w = NoFile \/ state_file w = Garbage ->
   load_state w = (Val default_state, w) /\
   exists l, eval startup w = Val l /\
             relay_turned_on_by_script l = VBool false /\
             lamp_turned_on_by_script l = VBool false) /\
  (forall v, state_file w = JsonFile v -> load_state w = (Val v, w)).
Proof.
  rewrite load_state_loaded. split; [eauto|]. split.
  - intros H.
    assert (loaded w = default_state) as Hd
        by (unfold loaded; destruct H as [-> | ->]; reflexivity).
    rewrite Hd. split; auto.
    unfold eval, startup. unfold bind at 1. rewrite load_state_loaded, Hd.
    cbn [getitem default_state dict_get relay_key lamp_key String.eqb
           Ascii.eqb Bool.eqb].
    unfold bind at 1, ret at 1. unfold bind at 1, ret at 1.
    unfold bind at 1.
    destruct (get_shelly_device_state_effect (shelly_relay_ip config)
                "relay" w) as (ri & w1 & -> & _).
    unfold bind at 1.
    destruct (get_shelly_device_state_effect (shelly_lamp_ip config)
                "lamp" w1) as (li & w2 & -> & _).
    unfold bind at 1.
    destruct (truthy ri && negb (truthy (VBool false)));
      [rewrite save_state_merged|unfold ret at 1]; unfold bind at 1;
      (destruct (truthy li && negb (truthy (VBool false)));
       [rewrite save_state_merged|unfold ret at 1]); cbn; eauto.
  - intros v Hv. unfold loaded. now rewrite Hv.
Qed.

(** ** The sleep at the end of an iteration *)

Lemma datetime_now_run w :
  datetime_now w = (Val (now (pass 1 w)), pass 1 w).
Proof.
  unfold pass, exec, datetime_now. destruct (lapse w); reflexivity.
Qed.

Lemma pass_S k w : pass (S k) w = pass 1 (pass k w).
Proof.
  revert w. induction k as [|k IH]; intros w; [reflexivity|].
  change (pass (S (S k)) w) with (pass (S k) (exec datetime_now w)).
  rewrite IH. reflexivity.
Qed.

(** A read of the clock changes the clock and the pending lapses only, and
    never sets the clock back. *)
Lemma pass_frame k w :
  state_file (pass k w) = state_file w /\ writable (pass k w) = writable w /\
  relay_ison (pass k w) = relay_ison w /\ lamp_ison (pass k w) = lamp_ison w /\
  net (pass k w) = net w /\ meter (pass k w) = meter w /\
  trace (pass k w) = trace w /\ now w <= now (pass k w).
Proof.
  revert w. induction k as [|k IH]; intros w; cbn [pass].
  - repeat split; auto. lia.
  - destruct (IH (exec datetime_now w))
      as (H1 & H2 & H3 & H4 & H5 & H6 & H7 & H8).
    rewrite H1, H2, H3, H4, H5, H6, H7.
    unfold exec, datetime_now in *.
    destruct (lapse w) as [|e rest]; cbn in *; repeat split; auto; lia.
Qed.

Lemma has_passed_event_sunset w :
  has_passed_event "sunset" w
  = (Val (sunset (date_of (now (pass 1 w))) <? now (pass 2 w)), pass 2 w).
Proof.
  unfold has_passed_event. unfold bind at 1. rewrite datetime_now_run.
  cbn [sun_event String.eqb Ascii.eqb Bool.eqb]. unfold bind at 1, ret at 1.
  unfold bind at 1. rewrite datetime_now_run, <- pass_S. reflexivity.
Qed.

Lemma wait_until_sunrise_run w :
  wait_until_sunrise w =
  if sunset (date_of (now (pass 1 w))) <? now (pass 2 w)
  then time_sleep (sunrise (date_of (now (pass 3 w)) + 1) - now (pass 2 w))
         (pass 3 w)
  else (Val tt, pass 2 w).
Proof.
  unfold wait_until_sunrise. unfold bind at 1. rewrite datetime_now_run.
  cbn [sun_event String.eqb Ascii.eqb Bool.eqb]. unfold bind at 1, ret at 1.
  unfold bind at 1. rewrite datetime_now_run, <- pass_S.
  destruct (sunset (date_of (now (pass 1 w))) <? now (pass 2 w));
    [|reflexivity].
  unfold bind at 1. rewrite datetime_now_run, <- pass_S. reflexivity.
Qed.

Lemma pass_pass j k w : pass j (pass k w) = pass (k + j) w.
Proof.
  revert w. induction k as [|k IH]; intros w; [reflexivity|].
  cbn [pass Nat.add]. apply IH.
Qed.

(** The sleep decision by the five readings of the clock it can take: two
    in [has_passed_event], three in [wait_until_sunrise]. *)
Lemma sleep_decision_run w :
  sleep_decision w =
  if sunset (date_of (now (pass 1 w))) <? now (pass 2 w)
  then if sunset (date_of (now (pass 3 w))) <? now (pass 4 w)
       then time_sleep
              (sunrise (date_of (now (pass 5 w)) + 1) - now (pass 4 w))
              (pass 5 w)
       else (Val tt, pass 4 w)
  else time_sleep (5 * second) (pass 2 w).
Proof.
  unfold sleep_decision. unfold bind at 1.
  rewrite has_passed_event_sunset.
  destruct (sunset (date_of (now (pass 1 w))) <? now (pass 2 w)) eqn:E; auto.
  rewrite wait_until_sunrise_run, !pass_pass. reflexivity.
Qed.

Lemma time_sleep_effect d w :
  let w' := exec (time_sleep d) w in
  state_file w' = state_file w /\ writable w' = writable w /\
  relay_ison w' = relay_ison w /\ lamp_ison w' = lamp_ison w /\
  net w' = net w /\ meter w' = meter w /\
  http_requests (trace w') = http_requests (trace w) /\
  set_state_calls (trace w') = set_state_calls (trace w).
Proof.
  unfold time_sleep, exec, http_requests, set_state_calls.
  destruct (d <? 0); cbn; rewrite ?filter_app, ?app_nil_r; auto 10.
Qed.

Lemma sleep_decision_effect w :
  let w' := exec sleep_decision w in
  state_file w' = state_file w /\ writable w' = writable w /\
  relay_ison w' = relay_ison w /\ lamp_ison w' = lamp_ison w /\
  net w' = net w /\ meter w' = meter w /\
  http_requests (trace w') = http_requests (trace w) /\
  set_state_calls (trace w') = set_state_calls (trace w).
Proof.
  unfold exec. rewrite sleep_decision_run.
  destruct (sunset (date_of (now (pass 1 w))) <? now (pass 2 w));
    [destruct (sunset (date_of (now (pass 3 w))) <? now (pass 4 w))|].
  - destruct (time_sleep_effect
                (sunrise (date_of (now (pass 5 w)) + 1) - now (pass 4 w))
                (pass 5 w)) as (H1 & H2 & H3 & H4 & H5 & H6 & H7 & H8).
    destruct (pass_frame 5 w) as (P1 & P2 & P3 & P4 & P5 & P6 & P7 & _).
    unfold exec in *. rewrite H1, H2, H3, H4, H5, H6, H7, H8.
    rewrite P1, P2, P3, P4, P5, P6, P7. auto 10.
  - cbn [snd].
    destruct (pass_frame 4 w) as (P1 & P2 & P3 & P4 & P5 & P6 & P7 & _).
    rewrite P1, P2, P3, P4, P5, P6, P7. auto 10.
  - destruct (time_sleep_effect (5 * second) (pass 2 w))
      as (H1 & H2 & H3 & H4 & H5 & H6 & H7 & H8).
    destruct (pass_frame 2 w) as (P1 & P2 & P3 & P4 & P5 & P6 & P7 & _).
    unfold exec in *. rewrite H1, H2, H3, H4, H5, H6, H7, H8.
    rewrite P1, P2, P3, P4, P5, P6, P7. auto 10.
Qed.


(** When no time passes between the reads of the clock, the readings are
    all the one instant: after today's sunset the sleep length is
    tomorrow's sunrise minus now. *)
Corollary sleep_decision_after_sunset_at_once w :
  lapse w = [] ->
  sunset (date_of (now w)) < now w ->
  let d := sunrise (date_of (now w) + 1) - now w in
  (0 <= d ->
   sleep_decision w = (Val tt, set_now (now w + d) (emit (Sleep d) w))) /\
  (d < 0 -> sleep_decision w = (Exc ValueError, w)).
Proof.
  intros Hl Hset d.
  assert (forall k, pass k w = w) as Hp.
  { induction k as [|k IH]; [reflexivity|]. cbn [pass].
    unfold exec, datetime_now. rewrite Hl. exact IH. }
  apply Z.ltb_lt in Hset. rewrite sleep_decision_run, !Hp, Hset. fold d.
  unfold time_sleep. split; intros Hd.
  - destruct (d <? 0) eqn:E; [apply Z.ltb_lt in E; lia | reflexivity].
  - apply Z.ltb_lt in Hd. now rewrite Hd.
Qed.

(** ** One iteration *)

(** C9. In an iteration whose reading is absent, or present and from the low
    to the high threshold, the policy does nothing: the iteration is the
    sleep decision taken right after the reading, it sends no HTTP request,
    so no device-control request, and leaves the state file as it was. *)
Theorem tick_without_action l w :
  eval get_solar_output w = Val None \/
  (exists p, eval get_solar_output w = Val (Some p) /\
             low_threshold config <= p <= high_threshold config) ->
  tick l w = sleep_decision (exec get_solar_output w) /\
  http_requests (trace (exec (tick l) w)) = http_requests (trace w) /\
  set_state_calls (trace (exec (tick l) w)) = set_state_calls (trace w) /\
  state_file (exec (tick l) w) = state_file w /\
  writable (exec (tick l) w) = writable w.
Proof.
  intros H.
  pose proof (get_solar_output_frame w) as (F1 & F2 & _ & _ & _ & _ & F7).
  assert (tick l w = sleep_decision (exec get_solar_output w)) as Ht.
  { unfold tick, eval, exec in *. unfold bind at 1.
    destruct (get_solar_output w) as [r w1]. cbn in *.
    destruct H as [-> | (p & -> & Hlo & Hhi)].
    - reflexivity.
    - unfold policy.
      destruct (high_threshold config <? p) eqn:E1;
        [apply Z.ltb_lt in E1; lia|].
      destruct (p <? low_threshold config) eqn:E2;
        [apply Z.ltb_lt in E2; lia|].
      reflexivity. }
  split; auto.
  replace (exec (tick l) w)
    with (exec sleep_decision (exec get_solar_output w))
    by (unfold exec at 1 3; now rewrite Ht).
  pose proof (sleep_decision_effect (exec get_solar_output w))
    as (S1 & S2 & _ & _ & _ & _ & S7 & S8).
  rewrite S1, S2, S7, S8, F1, F2, F7. auto.
Qed.

(** ** The threshold policy *)

Lemma controls_of_app u t t' :
  controls_of u (t ++ t') = controls_of u t ++ controls_of u t'.
Proof. apply filter_app. Qed.

Lemma controls_of_set_state_calls u t :
  controls_of u (set_state_calls t) = controls_of u t.
Proof.
  unfold controls_of, set_state_calls.
  induction t as [|[u' [b|]|d] t IH]; cbn; auto.
  destruct (url_eqb u' u); cbn; now rewrite IH.
Qed.

Lemma controls_of_observed_only u w w' :
  observed_only w w' -> controls_of u (trace w') = controls_of u (trace w).
Proof.
  intros (_ & _ & _ & _ & H).
  rewrite <- (controls_of_set_state_calls u (trace w')), H.
  apply controls_of_set_state_calls.
Qed.

Lemma control_shelly_device_trace device_ip device_type turn_on track w u :
  device_url device_ip device_type w = (Val u, w) ->
  trace (exec (control_shelly_device device_ip device_type turn_on track) w)
  = trace w ++ [Request u (Some turn_on)].
Proof.
  intros Hu. unfold exec.
  rewrite control_shelly_device_exchange. unfold exchange, bind. rewrite Hu.
  destruct (requests_get_effect u (Some turn_on) w)
    as (r & w' & E & _ & _ & _ & _ & T).
  rewrite E. destruct r as [r|e]; auto.
  destruct ((status_code r =? 200) && track); auto.
  rewrite save_state_merged. cbn [snd].
  destruct (merged device_type turn_on (loaded w')); auto.
  destruct (writable w'); auto.
Qed.

(** Above the high threshold both devices are commanded on, whatever they
    answer and whatever is recorded: the policy sends exactly the two
    requests, and asks neither device for its state. *)
Lemma policy_high_commands_both l w p :
  high_threshold config < p ->
  trace (exec (policy l p) w)
  = trace w ++ [Request relay_endpoint (Some true);
                Request lamp_endpoint (Some true)].
Proof.
  intros H. apply Z.ltb_lt in H. unfold policy. rewrite H.
  unfold exec, bind.
  pose proof (control_shelly_device_returns (shelly_relay_ip config) "relay"
                true true w) as R.
  pose proof (control_shelly_device_trace (shelly_relay_ip config) "relay"
                true true w relay_endpoint eq_refl) as T.
  unfold eval, exec in *.
  destruct (control_shelly_device (shelly_relay_ip config) "relay" true true w)
    as [r w1]. cbn in R, T. subst r.
  pose proof (control_shelly_device_trace (shelly_lamp_ip config) "lamp"
                true true w1 lamp_endpoint eq_refl) as T2.
  unfold exec in T2. rewrite T2, T, <- app_assoc. reflexivity.
Qed.

Lemma url_eqb_lamp_relay : url_eqb lamp_endpoint relay_endpoint = false.
Proof. unfold url_eqb. cbn. apply andb_false_r. Qed.

Lemma url_eqb_relay_lamp : url_eqb relay_endpoint lamp_endpoint = false.
Proof. unfold url_eqb. cbn. apply andb_false_r. Qed.

Lemma url_eqb_refl u : url_eqb u u = true.
Proof. unfold url_eqb. now rewrite !String.eqb_refl. Qed.

(** A healthy, tracked command to the relay: the request is sent, the relay
    obeys, the record is rewritten. *)
Lemma control_relay_healthy turn_on w d :
  net w = [] -> writable w = true -> loaded w = VDict d ->
  control_shelly_device (shelly_relay_ip config) "relay" turn_on true w
  = (Val tt,
     set_state_file (JsonFile (VDict (dict_set relay_key (VBool turn_on) d)))
       (set_relay_ison turn_on
          (emit (Request relay_endpoint (Some turn_on)) w))).
Proof.
  intros Hnet Hwr Hd. rewrite control_shelly_device_exchange.
  unfold exchange, device_url. cbn [String.eqb Ascii.eqb Bool.eqb].
  unfold bind, ret, requests_get. cbn [net emit]. rewrite Hnet.
  unfold serve.
  change (mkUrl (shelly_relay_ip config) "/relay/0") with relay_endpoint.
  rewrite url_eqb_refl. cbn [status_code Z.eqb Pos.eqb andb].
  rewrite save_state_merged.
  unfold loaded in *. cbn [state_file writable set_relay_ison emit].
  rewrite Hd, Hwr. reflexivity.
Qed.

Lemma control_lamp_healthy turn_on w d :
  net w = [] -> writable w = true -> loaded w = VDict d ->
  control_shelly_device (shelly_lamp_ip config) "lamp" turn_on true w
  = (Val tt,
     set_state_file (JsonFile (VDict (dict_set lamp_key (VBool turn_on) d)))
       (set_lamp_ison turn_on
          (emit (Request lamp_endpoint (Some turn_on)) w))).
Proof.
  intros Hnet Hwr Hd. rewrite control_shelly_device_exchange.
  unfold exchange, device_url. cbn [String.eqb Ascii.eqb Bool.eqb].
  unfold bind, ret, requests_get. cbn [net emit]. rewrite Hnet.
  unfold serve.
  change (mkUrl (shelly_lamp_ip config) "/light/0") with lamp_endpoint.
  rewrite url_eqb_lamp_relay, url_eqb_refl.
  cbn [status_code Z.eqb Pos.eqb andb].
  rewrite save_state_merged.
  unfold loaded in *. cbn [state_file writable set_lamp_ison emit].
  rewrite Hd, Hwr. reflexivity.
Qed.

(** Above the high threshold, with both exchanges healthy and a writable
    state file that reads back as a record, both devices are on afterwards
    and both flags read back as [True], whatever they were before. *)
Lemma policy_high_switches_on l w p d :
  high_threshold config < p ->
  net w = [] ->
  writable w = true ->
  loaded w = VDict d ->
  relay_ison (exec (policy l p) w) = true /\
  lamp_ison (exec (policy l p) w) = true /\
  flag_of relay_key (loaded (exec (policy l p) w)) = Some (VBool true) /\
  flag_of lamp_key (loaded (exec (policy l p) w)) = Some (VBool true).
Proof.
  intros H Hnet Hwr Hd. apply Z.ltb_lt in H. unfold policy. rewrite H.
  unfold exec, bind.
  rewrite (control_relay_healthy true w d Hnet Hwr Hd).
  erewrite (control_lamp_healthy true _
              (dict_set relay_key (VBool true) d));
    [|exact Hnet|exact Hwr|reflexivity].
  cbn. repeat split.
  - rewrite dict_get_set_other by discriminate. apply dict_get_set_same.
  - apply dict_get_set_same.
Qed.

Lemma guarded_off_returns state flag device_ip device_type w :
  guarded_off state flag device_ip device_type w
  = (Val tt, exec (guarded_off state flag device_ip device_type) w).
Proof.
  pose proof (control_shelly_device_returns device_ip device_type
                false true w) as R.
  unfold guarded_off, eval, exec in *.
  destruct (truthy state), (truthy flag); auto.
  destruct (control_shelly_device _ _ _ _ w). cbn in R. now subst.
Qed.

(** The low branch, step by step: two state queries, each followed by its
    guarded switch-off. *)
Lemma policy_low_steps l w p :
  p <= high_threshold config ->
  p < low_threshold config ->
  exists relay_state w1 lamp_state w2,
    get_shelly_device_state (shelly_relay_ip config) "relay" w
    = (Val relay_state, w1) /\
    observed_only w w1 /\
    get_shelly_device_state (shelly_lamp_ip config) "lamp"
      (exec (guarded_off relay_state (relay_turned_on_by_script l)
               (shelly_relay_ip config) "relay") w1)
    = (Val lamp_state, w2) /\
    observed_only
      (exec (guarded_off relay_state (relay_turned_on_by_script l)
               (shelly_relay_ip config) "relay") w1) w2 /\
    exec (policy l p) w
    = exec (guarded_off lamp_state (lamp_turned_on_by_script l)
              (shelly_lamp_ip config) "lamp") w2.
Proof.
  intros Hhi Hlo. unfold policy.
  destruct (high_threshold config <? p) eqn:E1; [apply Z.ltb_lt in E1; lia|].
  apply Z.ltb_lt in Hlo. rewrite Hlo.
  destruct (get_shelly_device_state_effect (shelly_relay_ip config) "relay" w)
    as (rs & w1 & G1 & O1).
  set (w1' := exec (guarded_off rs (relay_turned_on_by_script l)
                      (shelly_relay_ip config) "relay") w1).
  destruct (get_shelly_device_state_effect (shelly_lamp_ip config) "lamp" w1')
    as (ls & w2 & G2 & O2).
  exists rs, w1, ls, w2. repeat split; try apply O1; try apply O2; auto.
  unfold exec at 1. unfold bind at 1. rewrite G1.
  unfold bind at 1.
  change (if truthy rs
          then if truthy (relay_turned_on_by_script l)
               then control_shelly_device (shelly_relay_ip config) "relay"
                      false true
               else ret tt
          else ret tt)
    with (guarded_off rs (relay_turned_on_by_script l)
            (shelly_relay_ip config) "relay").
  rewrite guarded_off_returns. fold w1'. unfold bind at 1. rewrite G2.
  reflexivity.
Qed.

Lemma guarded_off_unflagged state flag device_ip device_type w :
  truthy flag = false ->
  exec (guarded_off state flag device_ip device_type) w = w.
Proof.
  intros H. unfold guarded_off, exec. rewrite H.
  destruct (truthy state); reflexivity.
Qed.

Lemma guarded_off_other u state flag device_ip device_type v w :
  device_url device_ip device_type w = (Val v, w) ->
  url_eqb v u = false ->
  controls_of u (trace (exec (guarded_off state flag device_ip device_type) w))
  = controls_of u (trace w).
Proof.
  intros Hv Hne. unfold guarded_off.
  destruct (truthy state), (truthy flag); auto.
  rewrite (control_shelly_device_trace _ _ _ _ _ v Hv), controls_of_app.
  cbn. rewrite Hne. apply app_nil_r.
Qed.

(** Below the low threshold a device whose flag in the locals of [main] is
    false is sent no device-control request, whatever the state file
    says. *)
Lemma policy_low_spares_unflagged l w p :
  p <= high_threshold config ->
  p < low_threshold config ->
  (truthy (relay_turned_on_by_script l) = false ->
   controls_of relay_endpoint (trace (exec (policy l p) w))
   = controls_of relay_endpoint (trace w)) /\
  (truthy (lamp_turned_on_by_script l) = false ->
   controls_of lamp_endpoint (trace (exec (policy l p) w))
   = controls_of lamp_endpoint (trace w)).
Proof.
  intros Hhi Hlo.
  destruct (policy_low_steps l w p Hhi Hlo)
    as (rs & w1 & ls & w2 & _ & O1 & _ & O2 & ->).
  split; intros Hflag.
  - rewrite (guarded_off_unflagged rs) in O2 by assumption.
    rewrite (guarded_off_other relay_endpoint ls _ _ _ lamp_endpoint)
      by (reflexivity || apply url_eqb_lamp_relay).
    rewrite (controls_of_observed_only _ _ _ O2).
    apply (controls_of_observed_only _ _ _ O1).
  - rewrite guarded_off_unflagged by assumption.
    rewrite (controls_of_observed_only _ _ _ O2).
    rewrite (guarded_off_other lamp_endpoint rs _ _ _ relay_endpoint)
      by (reflexivity || apply url_eqb_relay_lamp).
    apply (controls_of_observed_only _ _ _ O1).
Qed.

(** * Further properties of the code *)

(** ** Queries and commands to a device *)

(** X1. [get_shelly_device_state] answers [False] unless the exchange is
    answered with status 200 and a JSON object that has the key [ison]; in
    that case it returns the value under [ison] as it is. *)
Theorem get_shelly_device_state_answer device_ip device_type w :
  ((forall r d x,
       eval (exchange device_ip device_type None) w = Val r ->
       status_code r = 200 -> body r = Some (VDict d) ->
       dict_get "ison" d = Some x -> False) ->
   eval (get_shelly_device_state device_ip device_type) w = Val (VBool false))
  /\
  (forall r d x,
      eval (exchange device_ip device_type None) w = Val r ->
      status_code r = 200 -> body r = Some (VDict d) ->
      dict_get "ison" d = Some x ->
      eval (get_shelly_device_state device_ip device_type) w = Val x).
Proof.
  unfold eval. rewrite get_shelly_device_state_exchange.
  destruct (exchange device_ip device_type None w) as [[r|e] w1]; cbn [fst].
  - split.
    + intros H. destruct (status_code r =? 200) eqn:E; auto.
      apply Z.eqb_eq in E. unfold response_json, get_default. monad.
      destruct (body r) as [[| | | | |d]|] eqn:Eb; auto.
      destruct (dict_get "ison" d) as [x|] eqn:Ed; auto.
      exfalso. eapply (H r d x); eauto.
    + intros r' d x Hr H200 Hb Hd. injection Hr as <-.
      rewrite H200. unfold response_json, get_default. monad.
      rewrite Hb. cbn. now rewrite Hd.
  - split; auto. intros r d x Hr. discriminate.
Qed.

(** X2. With a device type that is neither ['relay'] nor ['lamp'], a state
    query answers [False] and a command returns, and neither sends a request
    nor touches the state file: the world is left exactly as it was. *)
Theorem unknown_device_type_is_ignored device_ip device_type turn_on track w :
  device_type <> "relay" -> device_type <> "lamp" ->
  get_shelly_device_state device_ip device_type w = (Val (VBool false), w) /\
  control_shelly_device device_ip device_type turn_on track w = (Val tt, w).
Proof.
  intros Hr Hl.
  apply String.eqb_neq in Hr. apply String.eqb_neq in Hl.
  unfold get_shelly_device_state, control_shelly_device, device_url.
  rewrite Hr, Hl. split; reflexivity.
Qed.

(** ** The power meter *)

(** X3. [get_solar_output] reports no reading when the Modbus read raises,
    when the result is an error, and when the answer carries fewer than two
    registers; each time it returns normally and only the pending read is
    consumed. *)
Theorem get_solar_output_absent w :
  (meter w = [] \/
   (exists rest, meter w = MbRaise :: rest) \/
   (exists rest, meter w = MbIsError :: rest) \/
   (exists payload rest,
       meter w = MbRegisters payload :: rest /\
       (List.length payload < 2)%nat)) ->
  eval get_solar_output w = Val None /\
  meter (exec get_solar_output w) = tl (meter w) /\
  trace (exec get_solar_output w) = trace w /\
  state_file (exec get_solar_output w) = state_file w.
Proof.
  unfold get_solar_output, read_input_registers. monad.
  intros [H | [(rest & H) | [(rest & H) | (payload & rest & H & Hlen)]]];
    rewrite H; cbn -[nth_error]; auto.
  destruct payload as [|a [|b payload]]; cbn in *; auto. lia.
Qed.

(** ** The state file *)

(** X4. On a writable state file that is missing or unreadable as JSON,
    [save_state] for a device writes a fresh record: the commanded value for
    that device and [False] for the other. *)
Theorem save_state_creates_record (turn_on : bool) w :
  writable w = true ->
  state_file w = NoFile \/ state_file w = Garbage ->
  state_file (exec (save_state "relay" turn_on) w)
  = JsonFile (VDict [(relay_key, VBool turn_on); (lamp_key, VBool false)]) /\
  state_file (exec (save_state "lamp" turn_on) w)
  = JsonFile (VDict [(relay_key, VBool false); (lamp_key, VBool turn_on)]).
Proof.
  intros Hw Hf. unfold exec. rewrite !save_state_merged.
  assert (loaded w = default_state) as ->
      by (unfold loaded; destruct Hf as [-> | ->]; reflexivity).
  rewrite Hw. split; reflexivity.
Qed.

(** X5. [save_state] for a device is dropped, leaving the world exactly as
    it was and returning normally, when the state file cannot be written and
    when it holds JSON that is not an object. *)
Theorem save_state_dropped device_type (turn_on : bool) w :
  device_type = "relay" \/ device_type = "lamp" ->
  writable w = false \/ (forall d, loaded w <> VDict d) ->
  save_state device_type turn_on w = (Val tt, w).
Proof.
  intros Ht H. rewrite save_state_merged.
  destruct H as [H | H].
  - rewrite H. destruct (merged device_type turn_on (loaded w)); reflexivity.
  - unfold merged.
    destruct Ht as [-> | ->]; cbn; destruct (loaded w) eqn:E; auto;
      exfalso; eapply H; eauto.
Qed.

Lemma dict_set_set k v v' d : dict_set k v' (dict_set k v d) = dict_set k v' d.
Proof.
  induction d as [|[k0 v0] d IH]; cbn.
  - now rewrite String.eqb_refl.
  - destruct (String.eqb k k0) eqn:E; cbn; rewrite E; auto.
    now rewrite IH.
Qed.

Lemma merged_merged device_type a b state v :
  merged device_type a state = Some v ->
  merged device_type b v = merged device_type b state.
Proof.
  unfold merged.
  destruct (String.eqb device_type "relay");
    [|destruct (String.eqb device_type "lamp")];
    destruct state; intros H; try discriminate; injection H as <-;
    try reflexivity; now rewrite dict_set_set.
Qed.

(** X6. The last [save_state] for a device wins: saving one value and then
    another for the same device leaves the world that saving the second one
    alone leaves. Saving the same value twice is saving it once. *)
Theorem save_state_last_wins device_type (a b : bool) w :
  exec (save_state device_type b) (exec (save_state device_type a) w)
  = exec (save_state device_type b) w.
Proof.
  unfold exec. rewrite !save_state_merged. cbn [snd].
  destruct (merged device_type a (loaded w)) as [v|] eqn:E; auto.
  destruct (writable w) eqn:Hw;
    [|rewrite Hw; destruct (merged device_type b (loaded w)); reflexivity].
  unfold loaded at 1. cbn [state_file set_state_file writable].
  rewrite (merged_merged _ _ _ _ _ E), Hw.
  destruct (merged device_type b (loaded w)) eqn:E2; [reflexivity|].
  exfalso. unfold merged in E, E2.
  destruct (String.eqb device_type "relay");
    [|destruct (String.eqb device_type "lamp")];
    destruct (loaded w); discriminate.
Qed.

Lemma loaded_after_save_state device_type turn_on w :
  loaded (exec (save_state device_type turn_on) w)
  = match merged device_type turn_on (loaded w) with
    | Some v => if writable w then v else loaded w
    | None => loaded w
    end /\
  writable (exec (save_state device_type turn_on) w) = writable w.
Proof.
  unfold exec. rewrite save_state_merged. cbn [snd].
  destruct (merged device_type turn_on (loaded w)); auto.
  destruct (writable w) eqn:E; split; cbn; auto.
Qed.

(** X7. Saves for the two devices do not disturb each other: in either
    order they leave the same value under every key of the record. *)
Theorem save_state_devices_commute (a b : bool) w k :
  flag_of k (loaded (exec (save_state "lamp" b)
                       (exec (save_state "relay" a) w)))
  = flag_of k (loaded (exec (save_state "relay" a)
                         (exec (save_state "lamp" b) w))).
Proof.
  destruct (loaded_after_save_state "relay" a w) as [R1 W1].
  destruct (loaded_after_save_state "lamp" b w) as [L1 W2].
  destruct (loaded_after_save_state "lamp" b
              (exec (save_state "relay" a) w)) as [-> _].
  destruct (loaded_after_save_state "relay" a
              (exec (save_state "lamp" b) w)) as [-> _].
  rewrite R1, L1, W1, W2. unfold merged. cbn [String.eqb Ascii.eqb Bool.eqb].
  destruct (loaded w) as [| | | | |d]; try reflexivity.
  destruct (writable w); try reflexivity. cbn [flag_of].
  destruct (String.eqb k relay_key) eqn:E1.
  - apply String.eqb_eq in E1. subst k.
    rewrite dict_get_set_other by discriminate.
    now rewrite !dict_get_set_same.
  - apply String.eqb_neq in E1.
    rewrite (dict_get_set_other relay_key k) by assumption.
    destruct (String.eqb k lamp_key) eqn:E2.
    + apply String.eqb_eq in E2. subst k. now rewrite !dict_get_set_same.
    + apply String.eqb_neq in E2.
      rewrite !(dict_get_set_other lamp_key k) by assumption.
      now rewrite dict_get_set_other.
Qed.

(** ** Composing computations *)

Lemma exec_bind {A B} (m : M A) (k : A -> M B) w :
  exec (bind m k) w
  = match m w with
    | (Val a, w') => exec (k a) w'
    | (Exc _, w') => w'
    end.
Proof. unfold exec, bind. destruct (m w) as [[a|e] w']; reflexivity. Qed.

Lemma keeps_ret {A} P (a : A) : keeps P (ret a).
Proof. intros w H. exact H. Qed.

Lemma keeps_bind {A B} P (m : M A) (k : A -> M B) :
  keeps P m -> (forall a, keeps P (k a)) -> keeps P (bind m k).
Proof.
  intros Hm Hk w Hw. rewrite exec_bind.
  specialize (Hm w Hw). unfold exec in Hm.
  destruct (m w) as [[a|e] w']; cbn in Hm; auto. now apply Hk.
Qed.

Lemma keeps_if {A} P (c : bool) (m m' : M A) :
  keeps P m -> keeps P m' -> keeps P (if c then m else m').
Proof. destruct c; auto. Qed.

Lemma returns_ret {A} (a : A) : returns (ret a).
Proof. intros w. now exists a. Qed.

Lemma returns_bind {A B} (m : M A) (k : A -> M B) :
  returns m -> (forall a, returns (k a)) -> returns (bind m k).
Proof.
  intros Hm Hk w. destruct (Hm w) as [a Ha]. unfold eval, bind in *.
  destruct (m w) as [[a'|e] w']; cbn in Ha; [|discriminate].
  apply Hk.
Qed.

Lemma returns_if {A} (c : bool) (m m' : M A) :
  returns m -> returns m' -> returns (if c then m else m').
Proof. destruct c; auto. Qed.

Lemma emits_ret {A} allowed (a : A) : emits allowed (ret a).
Proof.
  intros w. exists []. split; [symmetry; apply app_nil_r | reflexivity].
Qed.

Lemma emits_bind {A B} allowed (m : M A) (k : A -> M B) :
  emits allowed m -> (forall a, emits allowed (k a)) ->
  emits allowed (bind m k).
Proof.
  intros Hm Hk w. rewrite exec_bind.
  destruct (Hm w) as (t & Ht & Hal). unfold exec in Ht.
  destruct (m w) as [[a|e] w']; cbn in Ht; [|eauto].
  destruct (Hk a w') as (t' & Ht' & Hal').
  exists (t ++ t'). rewrite Ht', Ht, app_assoc, forallb_app, Hal, Hal'. auto.
Qed.

Lemma emits_if {A} allowed (c : bool) (m m' : M A) :
  emits allowed m -> emits allowed m' -> emits allowed (if c then m else m').
Proof. destruct c; auto. Qed.

Lemma emits_nothing {A} allowed (m : M A) :
  (forall w, trace (exec m w) = trace w) -> emits allowed m.
Proof.
  intros H w. exists []. rewrite H, app_nil_r. auto.
Qed.

Lemma emits_at_most_one {A} allowed (m : M A) e :
  allowed e = true ->
  (forall w, trace (exec m w) = trace w \/ trace (exec m w) = trace w ++ [e]) ->
  emits allowed m.
Proof.
  intros He H w. destruct (H w) as [Hw | Hw]; rewrite Hw.
  - exists []. rewrite app_nil_r. auto.
  - exists [e]. cbn. rewrite He. auto.
Qed.

Lemma filter_emitted (f allowed : event -> bool) (t : list event) :
  forallb allowed t = true ->
  (forall e, allowed e = true -> f e = false) ->
  filter f t = [].
Proof.
  intros Hal Hf. induction t as [|e t IH]; cbn in *; auto.
  apply andb_true_iff in Hal. destruct Hal as [He Ht].
  rewrite (Hf e He). auto.
Qed.

(** ** What each function does to the trace, the clock and the record *)

Lemma exchange_trace device_ip device_type turn w :
  trace (snd (exchange device_ip device_type turn w)) = trace w \/
  trace (snd (exchange device_ip device_type turn w))
  = trace w ++ [Request (mkUrl device_ip
                           (if String.eqb device_type "relay"
                            then "/relay/0" else "/light/0")) turn].
Proof.
  unfold exchange, device_url. monad.
  destruct (String.eqb device_type "relay");
    [|destruct (String.eqb device_type "lamp")]; cbn; auto.
  - destruct (requests_get_effect (mkUrl device_ip "/relay/0") turn w)
      as (r & w' & E & _ & _ & _ & _ & T).
    rewrite E. destruct r; cbn; auto.
  - destruct (requests_get_effect (mkUrl device_ip "/light/0") turn w)
      as (r & w' & E & _ & _ & _ & _ & T).
    rewrite E. destruct r; cbn; auto.
Qed.

Lemma get_shelly_device_state_returns device_ip device_type :
  returns (get_shelly_device_state device_ip device_type).
Proof.
  intros w.
  destruct (get_shelly_device_state_effect device_ip device_type w)
    as (v & w' & E & _).
  exists v. unfold eval. now rewrite E.
Qed.

Lemma get_shelly_device_state_exec device_ip device_type w :
  exec (get_shelly_device_state device_ip device_type) w
  = snd (exchange device_ip device_type None w).
Proof.
  unfold exec. rewrite get_shelly_device_state_exchange.
  destruct (exchange device_ip device_type None w) as [[r|e] w']; reflexivity.
Qed.

Lemma get_shelly_device_state_emits allowed device_ip device_type :
  (forall u, allowed (Request u None) = true) ->
  emits allowed (get_shelly_device_state device_ip device_type).
Proof.
  intros H. eapply emits_at_most_one; [apply H|].
  intros w. rewrite get_shelly_device_state_exec. apply exchange_trace.
Qed.

Lemma get_shelly_device_state_keeps (P : world -> Prop) device_ip device_type :
  (forall w w', observed_only w w' -> P w -> P w') ->
  keeps P (get_shelly_device_state device_ip device_type).
Proof.
  intros H w Hw.
  destruct (get_shelly_device_state_effect device_ip device_type w)
    as (v & w' & E & O).
  unfold exec. rewrite E. eapply H; eauto.
Qed.

Lemma save_state_returns device_type turn_on :
  returns (save_state device_type turn_on).
Proof. intros w. exists tt. unfold eval. now rewrite save_state_merged. Qed.

Lemma save_state_frame device_type turn_on w :
  trace (exec (save_state device_type turn_on) w) = trace w /\
  now (exec (save_state device_type turn_on) w) = now w.
Proof.
  unfold exec. rewrite save_state_merged. cbn [snd].
  destruct (merged device_type turn_on (loaded w)); auto.
  destruct (writable w); auto.
Qed.

Lemma recorded_dict_set_relay d (r l b : bool) :
  dict_get relay_key d = Some (VBool r) ->
  dict_get lamp_key d = Some (VBool l) ->
  dict_get relay_key (dict_set relay_key (VBool b) d) = Some (VBool b) /\
  dict_get lamp_key (dict_set relay_key (VBool b) d) = Some (VBool l).
Proof.
  intros Hr Hl. split; [apply dict_get_set_same|].
  rewrite dict_get_set_other by discriminate. exact Hl.
Qed.

Lemma recorded_dict_set_lamp d (r l b : bool) :
  dict_get relay_key d = Some (VBool r) ->
  dict_get lamp_key d = Some (VBool l) ->
  dict_get relay_key (dict_set lamp_key (VBool b) d) = Some (VBool r) /\
  dict_get lamp_key (dict_set lamp_key (VBool b) d) = Some (VBool b).
Proof.
  intros Hr Hl. split; [|apply dict_get_set_same].
  rewrite dict_get_set_other by discriminate. exact Hr.
Qed.

Lemma save_state_keeps_recorded device_type turn_on :
  keeps recorded (save_state device_type turn_on).
Proof.
  intros w (d & r & l & Hd & Hr & Hl). unfold recorded.
  destruct (loaded_after_save_state device_type turn_on w) as [-> _].
  rewrite Hd. unfold merged.
  destruct (String.eqb device_type "relay");
    [|destruct (String.eqb device_type "lamp")];
    destruct (writable w); eauto 6.
  - destruct (recorded_dict_set_relay d r l turn_on Hr Hl). eauto 6.
  - destruct (recorded_dict_set_lamp d r l turn_on Hr Hl). eauto 6.
Qed.

Lemma recorded_same_file w w' :
  state_file w' = state_file w -> recorded w -> recorded w'.
Proof.
  intros H (d & r & l & Hd & Hr & Hl). exists d, r, l.
  unfold loaded in *. rewrite H. auto.
Qed.

Lemma control_shelly_device_exec device_ip device_type turn_on track w :
  exec (control_shelly_device device_ip device_type turn_on track) w
  = snd (exchange device_ip device_type (Some turn_on) w) \/
  exec (control_shelly_device device_ip device_type turn_on track) w
  = exec (save_state device_type turn_on)
      (snd (exchange device_ip device_type (Some turn_on) w)).
Proof.
  unfold exec. rewrite control_shelly_device_exchange.
  destruct (exchange device_ip device_type (Some turn_on) w) as [[r|e] w'];
    auto.
  destruct ((status_code r =? 200) && track); auto.
Qed.

Lemma control_shelly_device_is_total device_ip device_type turn_on track :
  returns (control_shelly_device device_ip device_type turn_on track).
Proof.
  intros w. exists tt. apply control_shelly_device_returns.
Qed.

Lemma control_shelly_device_emits allowed device_ip device_type turn_on track :
  (forall u, allowed (Request u (Some turn_on)) = true) ->
  emits allowed (control_shelly_device device_ip device_type turn_on track).
Proof.
  intros H. eapply emits_at_most_one; [apply H|].
  intros w.
  destruct (control_shelly_device_exec device_ip device_type turn_on track w)
    as [-> | ->].
  - apply exchange_trace.
  - destruct (save_state_frame device_type turn_on
                (snd (exchange device_ip device_type (Some turn_on) w)))
      as [-> _].
    apply exchange_trace.
Qed.

Lemma control_shelly_device_keeps_now t device_ip device_type turn_on track :
  keeps (fun w => now w = t)
    (control_shelly_device device_ip device_type turn_on track).
Proof.
  intros w Hw.
  destruct (exchange_effect device_ip device_type (Some turn_on) w)
    as (r & w' & E & _ & _ & Hn & _).
  destruct (control_shelly_device_exec device_ip device_type turn_on track w)
    as [-> | ->]; rewrite E; cbn [snd].
  - congruence.
  - destruct (save_state_frame device_type turn_on w') as [_ ->]. congruence.
Qed.

Lemma control_shelly_device_keeps_recorded device_ip device_type turn_on track :
  keeps recorded (control_shelly_device device_ip device_type turn_on track).
Proof.
  intros w Hw.
  destruct (exchange_effect device_ip device_type (Some turn_on) w)
    as (r & w' & E & Hf & _).
  pose proof (recorded_same_file w w' Hf Hw) as Hw'.
  destruct (control_shelly_device_exec device_ip device_type turn_on track w)
    as [-> | ->]; rewrite E; cbn [snd]; auto.
  now apply save_state_keeps_recorded.
Qed.

Lemma observed_only_now t w w' : observed_only w w' -> now w = t -> now w' = t.
Proof. intros (_ & _ & H & _). congruence. Qed.

Lemma observed_only_recorded w w' :
  observed_only w w' -> recorded w -> recorded w'.
Proof. intros (H & _). now apply recorded_same_file. Qed.

Lemma get_solar_output_is_total : returns get_solar_output.
Proof. intros w. apply get_solar_output_returns. Qed.

Lemma get_solar_output_keeps (P : world -> Prop) :
  (forall w w', state_file w' = state_file w -> now w' = now w ->
                trace w' = trace w -> P w -> P w') ->
  keeps P get_solar_output.
Proof.
  intros H w Hw.
  destruct (get_solar_output_frame w) as (F1 & _ & _ & _ & _ & F6 & F7).
  eapply H; eauto.
Qed.

Lemma get_solar_output_emits allowed : emits allowed get_solar_output.
Proof. apply emits_nothing. intros w. apply get_solar_output_frame. Qed.

(** ** The policy and the loop, as compositions *)

Ltac returns_steps :=
  repeat first
    [ apply returns_ret
    | apply get_shelly_device_state_returns
    | apply control_shelly_device_is_total
    | apply save_state_returns
    | apply get_solar_output_is_total
    | apply returns_if
    | (apply returns_bind; [|intros ?]) ].

Lemma policy_returns l p : returns (policy l p).
Proof. unfold policy. returns_steps. Qed.

Lemma act_returns l : returns (act l).
Proof.
  unfold act. apply returns_bind; [apply get_solar_output_is_total|].
  intros [p|]; [apply policy_returns | apply returns_ret].
Qed.

Lemma policy_keeps_now t l p : keeps (fun w => now w = t) (policy l p).
Proof.
  unfold policy.
  repeat first
    [ apply keeps_ret
    | apply control_shelly_device_keeps_now
    | (apply get_shelly_device_state_keeps; apply observed_only_now)
    | apply keeps_if
    | (apply keeps_bind; [|intros ?]) ].
Qed.

Lemma policy_keeps_recorded l p : keeps recorded (policy l p).
Proof.
  unfold policy.
  repeat first
    [ apply keeps_ret
    | apply control_shelly_device_keeps_recorded
    | (apply get_shelly_device_state_keeps; apply observed_only_recorded)
    | apply keeps_if
    | (apply keeps_bind; [|intros ?]) ].
Qed.

Lemma policy_emits allowed l p :
  (forall u turn, allowed (Request u turn) = true) ->
  emits allowed (policy l p).
Proof.
  intros H. unfold policy.
  repeat first
    [ apply emits_ret
    | (apply control_shelly_device_emits; intros; apply H)
    | (apply get_shelly_device_state_emits; intros; apply H)
    | apply emits_if
    | (apply emits_bind; [|intros ?]) ].
Qed.

(** With both flags false the policy sends state queries and switch-on
    requests only. *)
Lemma policy_unflagged_emits allowed l p :
  truthy (relay_turned_on_by_script l) = false ->
  truthy (lamp_turned_on_by_script l) = false ->
  (forall u, allowed (Request u None) = true) ->
  (forall u, allowed (Request u (Some true)) = true) ->
  emits allowed (policy l p).
Proof.
  intros Hr Hl Hq Hon. unfold policy. rewrite Hr, Hl.
  repeat first
    [ apply emits_ret
    | (apply (control_shelly_device_emits allowed _ _ true); exact Hon)
    | (apply get_shelly_device_state_emits; exact Hq)
    | apply emits_if
    | (apply emits_bind; [|intros ?]) ].
Qed.

Lemma tick_act l w : tick l w = (act l ;;; sleep_decision) w.
Proof.
  unfold tick, act, bind.
  destruct (get_solar_output w) as [[[p|]|e] w']; reflexivity.
Qed.

Lemma act_run l w :
  exists w', act l w = (Val tt, w') /\ w' = exec (act l) w.
Proof.
  destruct (act_returns l w) as [[] H]. unfold eval, exec in *.
  destruct (act l w) as [r w']. cbn in *. subst r. eauto.
Qed.

Lemma tick_run l w : tick l w = sleep_decision (exec (act l) w).
Proof.
  rewrite tick_act. unfold bind.
  destruct (act_run l w) as (w' & -> & ->). reflexivity.
Qed.

Lemma act_keeps (P : world -> Prop) l :
  keeps P get_solar_output -> (forall p, keeps P (policy l p)) ->
  keeps P (act l).
Proof.
  intros Hg Hp. unfold act. apply keeps_bind; auto.
  intros [p|]; [apply Hp | apply keeps_ret].
Qed.

Lemma act_emits allowed l :
  (forall p, emits allowed (policy l p)) -> emits allowed (act l).
Proof.
  intros Hp. unfold act. apply emits_bind; [apply get_solar_output_emits|].
  intros [p|]; [apply Hp | apply emits_ret].
Qed.

Lemma time_sleep_trace d w :
  trace (exec (time_sleep d) w) = trace w \/
  trace (exec (time_sleep d) w) = trace w ++ [Sleep d].
Proof. unfold time_sleep, exec. destruct (d <? 0); cbn; auto. Qed.

Lemma sleep_decision_emits allowed :
  (forall d, allowed (Sleep d) = true) -> emits allowed sleep_decision.
Proof.
  intros H w.
  assert (forall d k, exists t,
             trace (snd (time_sleep d (pass k w))) = trace w ++ t /\
             forallb allowed t = true) as Hs.
  { intros d k. destruct (pass_frame k w) as (_ & _ & _ & _ & _ & _ & P & _).
    destruct (time_sleep_trace d (pass k w)) as [T | T]; unfold exec in T;
      rewrite T, P; [exists [] | exists [Sleep d]]; cbn;
      rewrite ?H, ?app_nil_r; auto. }
  unfold exec. rewrite sleep_decision_run.
  destruct (sunset (date_of (now (pass 1 w))) <? now (pass 2 w));
    [destruct (sunset (date_of (now (pass 3 w))) <? now (pass 4 w))|];
    try apply Hs.
  destruct (pass_frame 4 w) as (_ & _ & _ & _ & _ & _ & P & _).
  exists []. cbn [snd]. rewrite P, app_nil_r. auto.
Qed.

Lemma sleep_decision_keeps_recorded : keeps recorded sleep_decision.
Proof.
  intros w Hw. eapply recorded_same_file; [|exact Hw].
  apply sleep_decision_effect.
Qed.

Lemma tick_keeps_recorded l : keeps recorded (tick l).
Proof.
  intros w Hw. unfold exec. rewrite tick_act.
  apply (keeps_bind recorded (act l) (fun _ => sleep_decision)); auto.
  - apply act_keeps; [|intros; apply policy_keeps_recorded].
    apply get_solar_output_keeps. intros w1 w2 H _ _.
    now apply recorded_same_file.
  - intros _. apply sleep_decision_keeps_recorded.
Qed.

Lemma iterate_keeps_recorded n l : keeps recorded (iterate n l).
Proof.
  induction n as [|n IH]; cbn [iterate]; [apply keeps_ret|].
  apply keeps_bind; [apply tick_keeps_recorded | intros _; exact IH].
Qed.

Lemma getitem_keeps (P : world -> Prop) state k : keeps P (getitem state k).
Proof.
  intros w Hw. unfold getitem, exec.
  destruct state; try exact Hw. destruct (dict_get k d); exact Hw.
Qed.

Lemma load_state_keeps (P : world -> Prop) : keeps P load_state.
Proof. intros w Hw. unfold exec. now rewrite load_state_loaded. Qed.

Lemma startup_keeps_recorded : keeps recorded startup.
Proof.
  unfold startup.
  repeat first
    [ apply keeps_ret
    | apply load_state_keeps
    | apply getitem_keeps
    | apply save_state_keeps_recorded
    | (apply get_shelly_device_state_keeps; apply observed_only_recorded)
    | apply keeps_if
    | (apply keeps_bind; [|intros ?]) ].
Qed.

(** The start-up goes through on a record that has both keys. *)
Lemma startup_runs w d rf lf :
  loaded w = VDict d ->
  dict_get relay_key d = Some rf ->
  dict_get lamp_key d = Some lf ->
  exists l, eval startup w = Val l /\
            relay_turned_on_by_script l = rf /\
            lamp_turned_on_by_script l = lf.
Proof.
  intros Hd Hr Hl. unfold eval, startup. unfold bind at 1.
  rewrite load_state_loaded, Hd. cbn [getitem]. rewrite Hr, Hl.
  unfold bind at 1, ret at 1. unfold bind at 1, ret at 1.
  unfold bind at 1.
  destruct (get_shelly_device_state_effect (shelly_relay_ip config)
              "relay" w) as (ri & w1 & -> & _).
  unfold bind at 1.
  destruct (get_shelly_device_state_effect (shelly_lamp_ip config)
              "lamp" w1) as (li & w2 & -> & _).
  unfold bind at 1.
  destruct (truthy ri && negb (truthy rf));
    [rewrite save_state_merged|unfold ret at 1]; unfold bind at 1;
    (destruct (truthy li && negb (truthy lf));
     [rewrite save_state_merged|unfold ret at 1]); cbn; eauto.
Qed.

(** ** Start-up and the whole loop *)

(** X8. What the start-up of [main] does with the state it loads. If it is
    not a JSON object, [main] raises [TypeError]; if it is an object that
    lacks one of the two keys, [main] raises [KeyError]; either way before
    any request is sent and with the world as it was. If it has both keys,
    the start-up goes through and the flags of [main] are the two values
    stored, whatever their type. *)
Theorem startup_outcome w :
  ((forall d, loaded w <> VDict d) -> startup w = (Exc TypeError, w)) /\
  (forall d, loaded w = VDict d ->
     (dict_get relay_key d = None \/ dict_get lamp_key d = None ->
      startup w = (Exc KeyError, w)) /\
     (forall rf lf,
         dict_get relay_key d = Some rf -> dict_get lamp_key d = Some lf ->
         exists l, eval startup w = Val l /\
                   relay_turned_on_by_script l = rf /\
                   lamp_turned_on_by_script l = lf)).
Proof.
  split.
  - intros H. unfold startup. unfold bind at 1. rewrite load_state_loaded.
    destruct (loaded w) eqn:E; try reflexivity. exfalso. eapply H; eauto.
  - intros d Hd. split.
    + intros H. unfold startup. unfold bind at 1.
      rewrite load_state_loaded, Hd. cbn [getitem].
      destruct (dict_get relay_key d) as [rf|] eqn:Er; [|reflexivity].
      destruct H as [H | H]; [discriminate|]. rewrite H. reflexivity.
    + intros rf lf. apply startup_runs. exact Hd.
Qed.

(** X12. A state file that reads back as a record with a boolean under each
    key still does so after [main] has started and run any number of
    iterations, whatever the devices, the meter and the disk do; so the
    start-up of a later run goes through. A missing or unreadable file
    counts: it reads back as the default record. *)
Theorem main_keeps_record n w :
  recorded w ->
  recorded (exec (main n) w) /\
  exists l, eval startup (exec (main n) w) = Val l.
Proof.
  intros Hw.
  assert (recorded (exec (main n) w)) as H.
  { unfold main. apply keeps_bind; auto.
    - apply startup_keeps_recorded.
    - intros l. apply iterate_keeps_recorded. }
  split; [exact H|].
  destruct H as (d & r & l & Hd & Hr & Hl).
  destruct (startup_runs _ d _ _ Hd Hr Hl) as (l' & Hs & _). eauto.
Qed.

(** X9. When both flags of [main] are false, no iteration of the loop ever
    sends a switch-off request, whatever the readings, the devices' answers
    and the state file: the switch-off requests of the trace stay as they
    were through any number of iterations. *)
Theorem no_switch_off_without_flags n l w :
  truthy (relay_turned_on_by_script l) = false ->
  truthy (lamp_turned_on_by_script l) = false ->
  switch_offs (trace (exec (iterate n l) w)) = switch_offs (trace w).
Proof.
  intros Hr Hl.
  assert (emits (fun e => negb (is_switch_off e)) (iterate n l)) as H.
  { induction n as [|n IH]; cbn [iterate]; [apply emits_ret|].
    apply emits_bind; [|intros _; exact IH].
    intros w0. unfold exec. rewrite tick_act.
    apply (emits_bind _ (act l) (fun _ => sleep_decision)).
    - apply act_emits. intros p.
      apply policy_unflagged_emits; auto.
    - intros _. apply sleep_decision_emits. reflexivity. }
  destruct (H w) as (t & -> & Ht).
  unfold switch_offs. rewrite filter_app.
  rewrite (filter_emitted is_switch_off _ t Ht), app_nil_r; auto.
  intros e He. now apply negb_true_iff in He.
Qed.

(** ** One iteration, by the reading *)

Lemma act_reading l w p :
  eval get_solar_output w = Val (Some p) ->
  exec (act l) w = exec (policy l p) (exec get_solar_output w).
Proof.
  unfold act, eval, exec, bind.
  destruct (get_solar_output w) as [r w']. cbn. now intros ->.
Qed.

(** X10. An iteration whose reading is above the high threshold sends
    exactly two HTTP requests, switch-on to the relay and then switch-on to
    the lamp, whatever state the devices are in and whether or not the first
    request succeeds; it asks neither device for its state. *)
Theorem tick_above_high_commands_both l w p :
  eval get_solar_output w = Val (Some p) ->
  high_threshold config < p ->
  http_requests (trace (exec (tick l) w))
  = http_requests (trace w)
    ++ [Request relay_endpoint (Some true);
        Request lamp_endpoint (Some true)].
Proof.
  intros Hp Hhi. unfold exec at 1. rewrite tick_run.
  destruct (sleep_decision_effect (exec (act l) w))
    as (_ & _ & _ & _ & _ & _ & H & _).
  unfold exec at 1 in H. rewrite H, (act_reading l w p Hp).
  rewrite (policy_high_commands_both l _ p Hhi).
  destruct (get_solar_output_frame w) as (_ & _ & _ & _ & _ & _ & ->).
  unfold http_requests. rewrite filter_app. reflexivity.
Qed.

Lemma guarded_off_controls state flag device_ip device_type w u :
  device_url device_ip device_type w = (Val u, w) ->
  controls_of u
    (trace (exec (guarded_off state flag device_ip device_type) w))
  = controls_of u (trace w)
    ++ (if truthy state && truthy flag
        then [Request u (Some false)] else []).
Proof.
  intros Hu. unfold guarded_off.
  destruct (truthy state), (truthy flag); cbn [andb];
    try (cbn; now rewrite app_nil_r).
  rewrite (control_shelly_device_trace _ _ _ _ _ u Hu), controls_of_app.
  cbn. now rewrite url_eqb_refl.
Qed.

(** X11. Below the low threshold each device is first asked for its state,
    the relay and then the lamp, and is sent a switch-off request exactly
    when its answer is truthy and its flag in the locals of [main] is
    truthy; otherwise it is sent no device-control request. *)
Theorem policy_low_switches_off_flagged l w p :
  p <= high_threshold config ->
  p < low_threshold config ->
  exists relay_state lamp_state,
    eval (get_shelly_device_state (shelly_relay_ip config) "relay") w
    = Val relay_state /\
    eval (get_shelly_device_state (shelly_lamp_ip config) "lamp")
      (exec (guarded_off relay_state (relay_turned_on_by_script l)
               (shelly_relay_ip config) "relay")
         (exec (get_shelly_device_state (shelly_relay_ip config) "relay") w))
    = Val lamp_state /\
    controls_of relay_endpoint (trace (exec (policy l p) w))
    = controls_of relay_endpoint (trace w)
      ++ (if truthy relay_state && truthy (relay_turned_on_by_script l)
          then [Request relay_endpoint (Some false)] else []) /\
    controls_of lamp_endpoint (trace (exec (policy l p) w))
    = controls_of lamp_endpoint (trace w)
      ++ (if truthy lamp_state && truthy (lamp_turned_on_by_script l)
          then [Request lamp_endpoint (Some false)] else []).
Proof.
  intros Hhi Hlo.
  destruct (policy_low_steps l w p Hhi Hlo)
    as (rs & w1 & ls & w2 & G1 & O1 & G2 & O2 & ->).
  exists rs, ls. unfold eval, exec at 2. rewrite G1. cbn [fst snd].
  rewrite G2. cbn [fst]. repeat split.
  - rewrite (guarded_off_other relay_endpoint ls _ _ _ lamp_endpoint)
      by (reflexivity || apply url_eqb_lamp_relay).
    rewrite (controls_of_observed_only _ _ _ O2).
    rewrite (guarded_off_controls rs (relay_turned_on_by_script l)
               (shelly_relay_ip config) "relay" w1 relay_endpoint eq_refl).
    now rewrite (controls_of_observed_only _ _ _ O1).
  - rewrite (guarded_off_controls ls (lamp_turned_on_by_script l)
               (shelly_lamp_ip config) "lamp" w2 lamp_endpoint eq_refl).
    rewrite (controls_of_observed_only _ _ _ O2).
    rewrite (guarded_off_other lamp_endpoint rs _ _ _ relay_endpoint)
      by (reflexivity || apply url_eqb_relay_lamp).
    now rewrite (controls_of_observed_only _ _ _ O1).
Qed.

Lemma sleeps_app t t' : sleeps (t ++ t') = sleeps t ++ sleeps t'.
Proof. apply filter_app. Qed.

(** Nothing but a read of the clock uses up a pending lapse. *)
Lemma requests_get_lapse u turn w :
  lapse (exec (requests_get u turn) w) = lapse w.
Proof.
  unfold requests_get, serve, exec. cbn [net emit].
  destruct (net w) as [|[|code b|] n];
    try (destruct (url_eqb u relay_endpoint);
         [|destruct (url_eqb u lamp_endpoint)]); reflexivity.
Qed.

Lemma exchange_lapse device_ip device_type turn w :
  lapse (snd (exchange device_ip device_type turn w)) = lapse w.
Proof.
  unfold exchange, device_url. monad.
  destruct (String.eqb device_type "relay");
    [|destruct (String.eqb device_type "lamp")]; cbn; auto.
  - pose proof (requests_get_lapse (mkUrl device_ip "/relay/0") turn w) as H.
    unfold exec in H.
    destruct (requests_get (mkUrl device_ip "/relay/0") turn w) as [[r|e] w'];
      exact H.
  - pose proof (requests_get_lapse (mkUrl device_ip "/light/0") turn w) as H.
    unfold exec in H.
    destruct (requests_get (mkUrl device_ip "/light/0") turn w) as [[r|e] w'];
      exact H.
Qed.

Lemma save_state_lapse device_type turn_on w :
  lapse (exec (save_state device_type turn_on) w) = lapse w.
Proof.
  unfold exec. rewrite save_state_merged. cbn [snd].
  destruct (merged device_type turn_on (loaded w)); auto.
  destruct (writable w); auto.
Qed.

Lemma get_shelly_device_state_keeps_lapse ls device_ip device_type :
  keeps (fun w => lapse w = ls)
    (get_shelly_device_state device_ip device_type).
Proof.
  intros w Hw. rewrite get_shelly_device_state_exec, exchange_lapse.
  exact Hw.
Qed.

Lemma control_shelly_device_keeps_lapse ls device_ip device_type turn_on track :
  keeps (fun w => lapse w = ls)
    (control_shelly_device device_ip device_type turn_on track).
Proof.
  intros w Hw.
  destruct (control_shelly_device_exec device_ip device_type turn_on track w)
    as [-> | ->]; rewrite ?save_state_lapse, exchange_lapse; exact Hw.
Qed.

Lemma policy_keeps_lapse ls l p : keeps (fun w => lapse w = ls) (policy l p).
Proof.
  unfold policy.
  repeat first
    [ apply keeps_ret
    | apply control_shelly_device_keeps_lapse
    | apply get_shelly_device_state_keeps_lapse
    | apply keeps_if
    | (apply keeps_bind; [|intros ?]) ].
Qed.

Lemma get_solar_output_lapse w : lapse (exec get_solar_output w) = lapse w.
Proof.
  unfold get_solar_output, read_input_registers. monad.
  destruct (meter w) as [|[| |p] m]; cbn -[nth_error]; auto.
  destruct (nth_error (map register_value p) 1); cbn; auto.
Qed.

(** What comes before the sleep reads no clock and takes no sleep. *)
Lemma act_before_sleep l w :
  now (exec (act l) w) = now w /\
  lapse (exec (act l) w) = lapse w /\
  sleeps (trace (exec (act l) w)) = sleeps (trace w).
Proof.
  split; [|split].
  - apply (act_keeps (fun w' => now w' = now w)); auto.
    + apply get_solar_output_keeps. intros; congruence.
    + intros p. apply policy_keeps_now.
  - apply (act_keeps (fun w' => lapse w' = lapse w)); auto.
    + intros w0 H0. now rewrite get_solar_output_lapse.
    + intros p. apply policy_keeps_lapse.
  - assert (emits (fun e => negb (is_sleep e)) (act l)) as H.
    { apply act_emits. intros p. apply policy_emits. reflexivity. }
    destruct (H w) as (t & -> & Ht).
    rewrite sleeps_app. unfold sleeps at 2.
    rewrite (filter_emitted is_sleep _ t Ht), app_nil_r; auto.
    intros e He. now apply negb_true_iff in He.
Qed.

(** The coming readings of the clock depend on the clock and the pending
    lapses only. *)
Lemma pass_now k w w' :
  now w' = now w -> lapse w' = lapse w ->
  now (pass k w') = now (pass k w).
Proof.
  revert w w'. induction k as [|k IH]; intros w w' Hn Hl; cbn [pass]; auto.
  apply IH; unfold exec, datetime_now; rewrite Hl;
    destruct (lapse w) eqn:E; cbn; congruence.
Qed.

(** X13. How an iteration ends, by the readings [r 1] to [r 5] of the clock
    that the sleep decision can take. If [has_passed_event] does not find
    its reading after sunset, the iteration takes the one sleep of 5
    seconds. If it does, [wait_until_sunrise] looks again: when its own
    reading is no longer after the sunset of the date it reads, the
    iteration ends without any sleep; otherwise it asks for one sleep, of
    the length computed, and [time.sleep] raises [ValueError], uncaught,
    when that length is negative. Nothing else makes an iteration raise,
    and no iteration sleeps twice. *)
Theorem tick_ends_in_at_most_one_sleep l w :
  let r k := now (pass k w) in
  (r 2%nat <= sunset (date_of (r 1%nat)) ->
   eval (tick l) w = Val tt /\
   sleeps (trace (exec (tick l) w))
   = sleeps (trace w) ++ [Sleep (5 * second)]) /\
  (sunset (date_of (r 1%nat)) < r 2%nat ->
   r 4%nat <= sunset (date_of (r 3%nat)) ->
   eval (tick l) w = Val tt /\
   sleeps (trace (exec (tick l) w)) = sleeps (trace w)) /\
  (sunset (date_of (r 1%nat)) < r 2%nat ->
   sunset (date_of (r 3%nat)) < r 4%nat ->
   let d := sunrise (date_of (r 5%nat) + 1) - r 4%nat in
   (0 <= d ->
    eval (tick l) w = Val tt /\
    sleeps (trace (exec (tick l) w)) = sleeps (trace w) ++ [Sleep d]) /\
   (d < 0 ->
    eval (tick l) w = Exc ValueError /\
    sleeps (trace (exec (tick l) w)) = sleeps (trace w))).
Proof.
  intros r. destruct (act_before_sleep l w) as (Hn & Hl & Hs).
  pose proof (tick_run l w) as Hrun.
  set (w' := exec (act l) w) in *.
  assert (forall k, now (pass k w') = r k) as Hr
      by (intros k; now apply pass_now).
  assert (forall k, sleeps (trace (pass k w')) = sleeps (trace w)) as Ht.
  { intros k.
    destruct (pass_frame k w') as (_ & _ & _ & _ & _ & _ & -> & _).
    exact Hs. }
  unfold eval, exec. rewrite Hrun, sleep_decision_run, !Hr.
  unfold time_sleep. split; [|split].
  - intros H.
    destruct (sunset (date_of (r 1%nat)) <? r 2%nat) eqn:E;
      [apply Z.ltb_lt in E; lia|].
    change (5 * second <? 0) with false.
    cbn [fst snd trace set_now emit]. now rewrite sleeps_app, Ht.
  - intros H H0. apply Z.ltb_lt in H. rewrite H.
    destruct (sunset (date_of (r 3%nat)) <? r 4%nat) eqn:E;
      [apply Z.ltb_lt in E; lia|].
    cbn [fst snd]. now rewrite Ht.
  - intros H H0. apply Z.ltb_lt in H, H0. rewrite H, H0.
    set (d := sunrise (date_of (r 5%nat) + 1) - r 4%nat).
    split; intros Hd.
    + destruct (d <? 0) eqn:E; [apply Z.ltb_lt in E; lia|].
      cbn [fst snd trace set_now emit]. now rewrite sleeps_app, Ht.
    + apply Z.ltb_lt in Hd. rewrite Hd. cbn [fst snd]. now rewrite Ht.
Qed.


End Script.

(** * The script on the concrete installation *)

Import Scenario.

(** ** Instances of the theorems above *)

Lemma get_solar_output_is_second_register_witness :
  eval get_solar_output (fresh [reading 1200]) = Val (Some 1200) /\
  exists payload rest,
    meter (fresh [reading 1200]) = MbRegisters payload :: rest /\
    nth_error (map register_value payload) 1 = Some 1200 /\
    0 <= 1200 <= 65535.
Proof.
  split; [reflexivity|].
  apply (get_solar_output_is_second_register (fresh [reading 1200]) 1200).
  reflexivity.
Defined.


Lemma control_shelly_device_persistence_witness :
  flag_of relay_key
    (loaded (exec (control_shelly_device cfg "192.168.1.10" "relay" true true)
               (by_hand []))) = Some (VBool true) /\
  state_file (exec (control_shelly_device cfg "192.168.1.10" "relay" true true)
                (set_net [Reply 500 None] (by_hand [])))
  = state_file (by_hand []).
Proof.
  destruct (control_shelly_device_persistence cfg "192.168.1.10" "relay" true
              (by_hand [])) as (_ & Hok & _).
  destruct (control_shelly_device_persistence cfg "192.168.1.10" "relay" true
              (set_net [Reply 500 None] (by_hand []))) as (_ & _ & _ & Hfail).
  split.
  - edestruct Hok as [_ H]; [reflexivity | reflexivity |].
    apply (H _ eq_refl eq_refl).
  - apply Hfail. intros r Hr. injection Hr as <-. discriminate.
Defined.

Lemma startup_reconciliation_witness :
  set_state_calls (trace (exec (startup cfg) (by_hand []))) = [] /\
  exists v, flag_of relay_key (loaded (exec (startup cfg) (by_hand [])))
            = Some v /\ truthy v = false.
Proof.
  pose proof (startup_reconciliation cfg (by_hand [])
                (mkLocals (VBool false) (VBool false)
                          (VBool true) (VBool false))
                (exec (startup cfg) (by_hand [])) eq_refl)
    as (Hcalls & Hrelay & _).
  split; [exact Hcalls|].
  destruct (Hrelay eq_refl eq_refl) as (v & Hv & Hf & _).
  exists v. auto.
Defined.

Lemma load_state_never_raises_witness :
  load_state (fresh []) = (Val default_state, fresh []) /\
  exists l, eval (startup cfg) (fresh []) = Val l.
Proof.
  destruct (load_state_never_raises cfg (fresh [])) as (_ & H & _).
  destruct (H (or_introl eq_refl)) as (Hl & l & Hs & _).
  split; [exact Hl|]. exists l. exact Hs.
Defined.


Lemma tick_without_action_witness :
  let l := mkLocals (VBool false) (VBool false) (VBool false) (VBool false) in
  tick cfg rise set date l (fresh [reading 500])
  = sleep_decision rise set date (exec get_solar_output (fresh [reading 500]))
  /\ set_state_calls (trace (exec (tick cfg rise set date l)
                               (fresh [reading 500]))) = [].
Proof.
  intros l.
  destruct (tick_without_action cfg rise set date l (fresh [reading 500]))
    as (H1 & _ & H2 & _).
  - right. exists 500. split; [reflexivity|]. cbn. lia.
  - split; [exact H1 | exact H2].
Defined.

(** ** Inputs on which the code departs from its description *)


(** C6. A call with [track_state] false that the relay obeys and answers
    with status 200 records nothing: the relay is on afterwards and its flag
    still reads back as [False]. *)
Lemma control_shelly_device_untracked :
  eval (exchange cfg "192.168.1.10" "relay" (Some true)) (fresh [])
  = Val (mkResponse 200 (ison_body true)) /\
  let w' := exec (control_shelly_device cfg "192.168.1.10" "relay" true false)
              (fresh []) in
  trace w' = [Request relay (Some true)] /\
  relay_ison w' = true /\
  state_file w' = NoFile /\
  flag_of relay_key (loaded w') = Some (VBool false).
Proof. vm_compute. repeat split. Qed.

(** With a state file that cannot be written, a tracked call that the relay
    obeys returns normally and the record stays as it was. *)
Remark control_shelly_device_read_only :
  let w' := exec (control_shelly_device cfg "192.168.1.10" "relay" true true)
              read_only in
  eval (control_shelly_device cfg "192.168.1.10" "relay" true true) read_only
  = Val tt /\
  relay_ison w' = true /\
  loaded w' = owned false false.
Proof. vm_compute. repeat split. Qed.

(** C7. A state file that is valid JSON but holds only the relay's key is
    returned as it is, not replaced by the default, and the start-up of
    [main] then raises [KeyError] on the lamp's key. *)
Lemma load_state_returns_partial_record :
  eval load_state half_file = Val (VDict [(relay_key, VBool true)]) /\
  eval load_state half_file <> Val default_state /\
  eval (startup cfg) half_file = Exc KeyError.
Proof. repeat split; try reflexivity. discriminate. Qed.

(** C1. The run of the scenario: thresholds 1000 and 200, both devices off,
    nothing recorded, readings 1200, 500, 150. The first iteration switches
    both devices on and records it in the state file. The third iteration
    asks both devices for their state and then sends no switch-off request:
    the flags it tests are the locals read at start-up, still [False]. Both
    devices stay on. *)
Theorem stale_flags_leave_devices_on :
  let readings := [reading 1200; reading 500; reading 150] in
  let run n := exec (main cfg rise set date n) (fresh readings) in
  set_state_calls (trace (run 1%nat))
  = [Request relay (Some true); Request lamp (Some true)] /\
  loaded (run 1%nat) = owned true true /\
  trace (run 2%nat) = trace (run 1%nat) ++ [Sleep (5 * second)] /\
  trace (run 3%nat)
  = trace (run 2%nat) ++ [Request relay None; Request lamp None;
                          Sleep (5 * second)] /\
  meter (run 3%nat) = [] /\
  loaded (run 3%nat) = owned true true /\
  relay_ison (run 3%nat) = true /\ lamp_ison (run 3%nat) = true.
Proof. vm_compute. repeat split. Qed.

(** C2. A second iteration with the same reading above the high threshold,
    both devices already on and recorded: the two switch-on requests are
    sent again, and neither device is asked for its state. *)
Theorem repeated_reading_repeats_commands :
  let readings := [reading 1200; reading 1200] in
  let run n := exec (main cfg rise set date n) (fresh readings) in
  relay_ison (run 1%nat) = true /\ lamp_ison (run 1%nat) = true /\
  loaded (run 1%nat) = owned true true /\
  trace (run 2%nat)
  = trace (run 1%nat) ++ [Request relay (Some true); Request lamp (Some true);
                          Sleep (5 * second)].
Proof. vm_compute. repeat split. Qed.

(** C3. The script starts with both devices on and recorded as its own. A
    reading of 150 makes it switch both off and record that. Someone then
    switches the relay on by hand: it is on, and its flag in the state file
    is [False]. At the next reading of 150 the script switches the relay off
    again: the flag it tests is the local read at start-up, still [True]. *)
Theorem relay_switched_by_hand_is_switched_off :
  let w0 := running [reading 150; reading 150] in
  let l := mkLocals (VBool true) (VBool true) (VBool true) (VBool true) in
  let w1 := exec (startup cfg) w0 in
  let w2 := exec (tick cfg rise set date l) w1 in
  let w3 := set_relay_ison true w2 in
  let w4 := exec (tick cfg rise set date l) w3 in
  eval (startup cfg) w0 = Val l /\
  relay_ison w2 = false /\ loaded w2 = owned false false /\
  relay_ison w3 = true /\
  flag_of relay_key (loaded w3) = Some (VBool false) /\
  trace w4 = trace w3 ++ [Request relay None; Request relay (Some false);
                          Request lamp None; Sleep (5 * second)] /\
  relay_ison w4 = false.
Proof. vm_compute. repeat split. Qed.

(** ** Instances of the further properties *)

Lemma get_shelly_device_state_answer_witness :
  eval (get_shelly_device_state cfg "192.168.1.10" "relay")
    (set_net [ConnError] (by_hand [])) = Val (VBool false) /\
  eval (get_shelly_device_state cfg "192.168.1.10" "relay")
    (set_net [Reply 200 (Some (VDict [("ison", VInt 1)]))] (fresh []))
  = Val (VInt 1).
Proof.
  split.
  - apply (proj1 (get_shelly_device_state_answer cfg "192.168.1.10" "relay"
                    (set_net [ConnError] (by_hand [])))).
    intros r d x Hr. vm_compute in Hr. discriminate Hr.
  - apply (proj2 (get_shelly_device_state_answer cfg "192.168.1.10" "relay"
                    (set_net [Reply 200 (Some (VDict [("ison", VInt 1)]))]
                       (fresh [])))
             (mkResponse 200 (Some (VDict [("ison", VInt 1)])))
             [("ison", VInt 1)] (VInt 1)); reflexivity.
Defined.

Lemma unknown_device_type_is_ignored_witness :
  get_shelly_device_state cfg "192.168.1.10" "fan" (fresh [])
  = (Val (VBool false), fresh []) /\
  control_shelly_device cfg "192.168.1.10" "fan" true true (fresh [])
  = (Val tt, fresh []).
Proof.
  apply (unknown_device_type_is_ignored cfg "192.168.1.10" "fan" true true
           (fresh [])); discriminate.
Defined.

Lemma get_solar_output_absent_witness :
  eval get_solar_output (fresh [MbRegisters [(x00, x01)]]) = Val None.
Proof.
  apply (get_solar_output_absent (fresh [MbRegisters [(x00, x01)]])).
  right. right. right. exists [(x00, x01)], []. split; [reflexivity|].
  cbn. lia.
Defined.

Lemma save_state_creates_record_witness :
  state_file (exec (save_state "relay" true) (fresh []))
  = JsonFile (owned true false).
Proof.
  apply (save_state_creates_record true (fresh []) eq_refl
           (or_introl eq_refl)).
Defined.

Lemma save_state_dropped_witness :
  save_state "relay" true read_only = (Val tt, read_only).
Proof.
  apply (save_state_dropped "relay" true read_only (or_introl eq_refl)
           (or_introl eq_refl)).
Defined.

Lemma startup_outcome_witness :
  startup cfg (set_state_file (JsonFile (VList [])) (fresh []))
  = (Exc TypeError, set_state_file (JsonFile (VList [])) (fresh [])).
Proof.
  apply (proj1 (startup_outcome cfg
                  (set_state_file (JsonFile (VList [])) (fresh [])))).
  intros d H. vm_compute in H. discriminate H.
Defined.

Lemma main_keeps_record_witness :
  recorded (exec (main cfg rise set date 2) (fresh [reading 1200])).
Proof.
  apply (main_keeps_record cfg rise set date 2 (fresh [reading 1200])).
  exists [(relay_key, VBool false); (lamp_key, VBool false)], false, false.
  repeat split.
Defined.

Lemma no_switch_off_without_flags_witness :
  switch_offs
    (trace (exec (iterate cfg rise set date 3
                    (mkLocals (VBool false) (VBool false)
                              (VBool true) (VBool false)))
              (by_hand [reading 150; reading 1200; reading 150])))
  = [].
Proof.
  apply (no_switch_off_without_flags cfg rise set date 3
           (mkLocals (VBool false) (VBool false) (VBool true) (VBool false))
           (by_hand [reading 150; reading 1200; reading 150]));
    reflexivity.
Defined.

Lemma tick_above_high_commands_both_witness :
  http_requests
    (trace (exec (tick cfg rise set date
                    (mkLocals (VBool true) (VBool true)
                              (VBool true) (VBool true)))
              (running [reading 1200])))
  = [Request relay (Some true); Request lamp (Some true)].
Proof.
  apply (tick_above_high_commands_both cfg rise set date
           (mkLocals (VBool true) (VBool true) (VBool true) (VBool true))
           (running [reading 1200]) 1200); reflexivity.
Defined.

Lemma policy_low_switches_off_flagged_witness :
  exists relay_state,
    eval (get_shelly_device_state cfg "192.168.1.10" "relay") (running [])
    = Val relay_state /\
    controls_of relay
      (trace (exec (policy cfg
                      (mkLocals (VBool true) (VBool true)
                                (VBool true) (VBool true)) 150)
                (running [])))
    = (if truthy relay_state && true
       then [Request relay (Some false)] else []).
Proof.
  destruct (policy_low_switches_off_flagged cfg
              (mkLocals (VBool true) (VBool true) (VBool true) (VBool true))
              (running []) 150) as (rs & ls & H1 & _ & H2 & _).
  - cbn. lia.
  - cbn. lia.
  - exists rs. split; [exact H1 | exact H2].
Defined.

Lemma tick_ends_in_at_most_one_sleep_witness :
  eval (tick cfg rise set date
          (mkLocals (VBool false) (VBool false) (VBool false) (VBool false)))
    (fresh [reading 500]) = Val tt /\
  sleeps (trace (exec (tick cfg rise set date
                         (mkLocals (VBool false) (VBool false)
                                   (VBool false) (VBool false)))
                   midnight)) = [].
Proof.
  destruct (tick_ends_in_at_most_one_sleep cfg rise set date
              (mkLocals (VBool false) (VBool false)
                        (VBool false) (VBool false))
              (fresh [reading 500])) as (Hday & _).
  destruct (tick_ends_in_at_most_one_sleep cfg rise set date
              (mkLocals (VBool false) (VBool false)
                        (VBool false) (VBool false))
              midnight) as (_ & Hroll & _).
  split.
  - apply Hday. vm_compute. discriminate.
  - apply Hroll; [reflexivity | vm_compute; discriminate].
Defined.

